(** * web-console terminal server: frame codec, PTY handle and session engine

    A shallow embedding of the Go package [terminal] (protocol, pty, handler)
    together with the properties its specification states about it.

    Conventions.
    - A Go [byte]/[uint8] is a [Byte.byte]; a [uint16] is a [Z] kept in
      [0, 65536) with the wrap-around of unsigned arithmetic written out.
    - A Go [error] is represented by its [Error()] text: the package itself
      tells errors apart by text ([err.Error() != "EOF"]) and only ever
      forwards the text to the peer.
    - A run-time panic (here: a slice expression out of range) is a result of
      its own, [Panic], distinct from a returned error.
    - Calls into the operating system and into the websocket library are
      recorded as [event]s; what they answer is an input of the model. *)

From Stdlib Require Import ZArith List Lia Strings.String Strings.Byte DecimalString.
From stdpp Require Import base gmap sets list.

Import ListNotations.
Local Open Scope Z_scope.

(** ** Go run-time values shared by the three source files *)

Module Go.

Definition error := string.

Inductive panic :=
| SliceBoundsOutOfRange (lo hi : Z).

Inductive outcome (A : Type) :=
| Ok (a : A)
| Err (e : error)
| Panic (p : panic).
Arguments Ok {A} a.
Arguments Err {A} e.
Arguments Panic {A} p.

Definition uint8_of (b : byte) : Z := Z.of_N (Byte.to_N b).

(** Conversion [uint8(x)] of an integer: the low eight bits. *)
Definition to_uint8 (z : Z) : byte :=
  match Byte.of_N (Z.to_N (z mod 256)) with
  | Some b => b
  | None => x00
  end.

(** Conversion [uint16(x)] of an integer: the low sixteen bits. *)
Definition to_uint16 (z : Z) : Z := z mod 65536.

(** [len(s)] as a Go [int]. *)
Definition len {A} (s : list A) : Z := Z.of_nat (length s).

(** The slice expression [s[lo:hi]].  Go panics unless
    [0 <= lo <= hi <= cap(s)]; capacity is not modelled, the bound used is
    [len(s)] (every use below is guarded by a length test on [hi]). *)
Definition slice {A} (s : list A) (lo hi : Z) : outcome (list A) :=
  if (0 <=? lo) && (lo <=? hi) && (hi <=? len s)
  then Ok (take (Z.to_nat (hi - lo)) (drop (Z.to_nat lo) s))
  else Panic (SliceBoundsOutOfRange lo hi).

(** [binary.LittleEndian.PutUint16]: low byte first. *)
Definition PutUint16 (v : Z) : list byte :=
  [to_uint8 v; to_uint8 (Z.shiftr v 8)].

(** [binary.LittleEndian.Uint16] on the two bytes [b0 b1]. *)
Definition Uint16 (b0 b1 : byte) : Z :=
  Z.lor (uint8_of b0) (Z.shiftl (uint8_of b1) 8).

(** [fmt.Sprintf("%d", n)] for a non-negative integer. *)
Definition itoa (n : Z) : string :=
  NilZero.string_of_uint (N.to_uint (Z.to_N n)).

(** [x == nil] for a pointer. *)
Definition is_nil {A} (x : option A) : bool :=
  match x with
  | None => true
  | Some _ => false
  end.

Definition io_EOF : error := "EOF"%string.
Definition io_ErrClosedPipe : error := "io: read/write on closed pipe"%string.

End Go.

(** ** protocol.go: the frame codec *)

Module Protocol.
Import Go.

Definition MessageType := byte.

Definition MsgTypeData : MessageType := x01.
Definition MsgTypeResize : MessageType := x02.
Definition MsgTypeControl : MessageType := x03.
Definition MsgTypeError : MessageType := x04.
Definition MsgTypeHeartbeat : MessageType := x05.
Definition MsgTypeClose : MessageType := x06.

Record Message := mkMessage { Type_ : MessageType; Data : list byte }.

Record ResizeData := mkResizeData { Cols : Z; Rows : Z }.

(** [func (m *Message) Marshal()], returning the wire bytes or an error. *)
Definition Marshal (m : Message) : outcome (list byte) :=
  if len (Data m) >? 0xFFFF
  then Err "message data too large"%string
  else Ok (Type_ m :: PutUint16 (to_uint16 (len (Data m))) ++ Data m).

(** [func UnmarshalMessage(data []byte)], returning a message or an error.
    [dataLen] is a [uint16], so [3+dataLen] is computed in [uint16] and wraps
    at 65536 before it is converted to [int] or used as a slice bound. *)
Definition UnmarshalMessage (data : list byte) : outcome Message :=
  match data with
  | msgType :: b1 :: b2 :: _ =>
      let dataLen := Uint16 b1 b2 in
      let hi := to_uint16 (3 + dataLen) in
      if len data <? hi
      then Err "incomplete message"%string
      else match slice data 3 hi with
           | Ok payload => Ok (mkMessage msgType payload)
           | Err e => Err e
           | Panic p => Panic p
           end
  | _ => Err "message too short"%string
  end.

(** [func (r *ResizeData) Marshal() []byte] *)
Definition ResizeData_Marshal (r : ResizeData) : list byte :=
  PutUint16 (Cols r) ++ PutUint16 (Rows r).

(** [func UnmarshalResizeData(data []byte)], returning the two dimensions
    or an error. *)
Definition UnmarshalResizeData (data : list byte) : outcome ResizeData :=
  match data with
  | c0 :: c1 :: r0 :: r1 :: _ => Ok (mkResizeData (Uint16 c0 c1) (Uint16 r0 r1))
  | _ => Err "invalid resize data"%string
  end.

(** The length field of a wire frame, as [UnmarshalMessage] reads it. *)
Definition length_field (data : list byte) : Z :=
  match data with
  | _ :: b1 :: b2 :: _ => Uint16 b1 b2
  | _ => 0
  end.

End Protocol.

(** ** What the package does to the outside world

    Each call that leaves the package (the pty library, [os.File],
    [os.Process], the websocket connection, the logger, the [go] statement)
    is one [event]; a run of the code yields the list of its events in
    program order. *)

Module Sys.
Import Go.

Inductive wskind := BinaryMessage | PingMessage.

Inductive event :=
| StartWithSize (command : string) (cols rows : Z)  (* pty.StartWithSize *)
| CmdCancel                                         (* cancel of the command context *)
| FileRead                                          (* p.pty.Read *)
| FileWrite (accepted : list byte)                  (* p.pty.Write, the bytes the master took *)
| Setsize (cols rows : Z)                           (* pty.Setsize *)
| ProcessSignal (sig : Z)                           (* cmd.Process.Signal *)
| ProcessKill                                       (* cmd.Process.Kill *)
| FileClose                                         (* p.pty.Close *)
| ConnWrite (kind : wskind) (data : list byte) (res : option error)
                                                    (* conn.WriteMessage and its answer *)
| ConnClose                                         (* conn.Close *)
| LogPrintf (text : string)                         (* log.Printf *)
| GoReadFromPTY                                     (* go s.readFromPTY() *)
| GoHeartbeat                                       (* go s.heartbeat(ticker) *)
| TickerStop.                                       (* ticker.Stop *)

Definition SIGTERM : Z := 15.

(** The bytes the PTY master received, in the order it received them. *)
Fixpoint pty_input (tr : list event) : list byte :=
  match tr with
  | [] => []
  | FileWrite accepted :: tr' => accepted ++ pty_input tr'
  | _ :: tr' => pty_input tr'
  end.

(** The binary transport frames written to the peer without error, in
    order. *)
Fixpoint peer_frames (tr : list event) : list (list byte) :=
  match tr with
  | [] => []
  | ConnWrite BinaryMessage data None :: tr' => data :: peer_frames tr'
  | _ :: tr' => peer_frames tr'
  end.

End Sys.

(** ** pty.go: the PTY handle *)

Module Pty.
Import Go Sys.

(** [type PTY struct].  [cmd] itself is never nil in a handle built by
    [NewPTY] (the only constructor), so only [cmd.Process] is optional; the
    descriptor and the process are named by the numbers the system gave. *)
Record PTY := mkPTY {
  cmd_Process : option nat;
  pty : option nat;
  closed : bool
}.

Section Platform.

(** [runtime.GOOS == "windows"] *)
Variable windows : bool.

Definition shell_command (SHELL : string) : string :=
  if windows then "cmd.exe"%string
  else if String.eqb SHELL ""%string then "/bin/bash"%string else SHELL.

(** [func NewPTY(cols, rows uint16)].  [start] is the answer of
    [pty.StartWithSize]: the master descriptor and the child, or an error. *)
Definition NewPTY (SHELL : string) (cols rows : Z) (start : nat * nat + error)
  : outcome PTY * list event :=
  match start with
  | inr err => (Err err, [StartWithSize (shell_command SHELL) cols rows; CmdCancel])
  | inl (fd, pid) =>
      (Ok (mkPTY (Some pid) (Some fd) false),
       [StartWithSize (shell_command SHELL) cols rows])
  end.

(** [func (p *PTY) Read(buf []byte) (int, error)].  [os] is what the master
    answers: the bytes it put into [buf], or an error with [n = 0]. *)
Definition Read (p : PTY) (os : list byte + error)
  : (list byte * option error) * list event :=
  if closed p then (([], Some io_EOF), [])
  else match os with
       | inl data => ((data, None), [FileRead])
       | inr err => (([], Some err), [FileRead])
       end.

(** [func (p *PTY) Write(data []byte) (int, error)].  [os] is what
    [os.File.Write] answers: [None] when every byte was written, or the
    number of bytes written before the error ([os.File.Write] returns a
    non-nil error whenever it wrote fewer bytes than it was given). *)
Definition Write (p : PTY) (data : list byte) (os : option (nat * error))
  : (Z * option error) * list event :=
  if closed p then ((0, Some io_ErrClosedPipe), [])
  else match os with
       | None => ((len data, None), [FileWrite data])
       | Some (n, err) => ((len (take n data), Some err), [FileWrite (take n data)])
       end.

(** [func (p *PTY) Resize(cols, rows uint16) error] *)
Definition Resize (p : PTY) (cols rows : Z) (os : option error)
  : option error * list event :=
  if closed p then (Some io_ErrClosedPipe, [])
  else (os, [Setsize cols rows]).

(** [func (p *PTY) SendSignal(sig syscall.Signal) error] *)
Definition SendSignal (p : PTY) (sig : Z) (os : option error)
  : option error * list event :=
  if closed p || is_nil (cmd_Process p)
  then (Some io_ErrClosedPipe, [])
  else if windows then (os, [ProcessKill])
  else (os, [ProcessSignal sig]).

(** [func (p *PTY) Close() error]; it always returns nil. *)
Definition Close (p : PTY) : PTY * list event :=
  if closed p then (p, [])
  else
    (mkPTY (cmd_Process p) (pty p) true,
     [CmdCancel]
     ++ (if is_nil (pty p) then [] else [FileClose])
     ++ (if is_nil (cmd_Process p) then []
         else [if windows then ProcessKill else ProcessSignal SIGTERM])).

End Platform.

End Pty.

(** ** handler.go: sessions and the handler *)

Module Terminal.
Import Go Sys Protocol.

(** [type Session struct].  [ctx_done] is the state of the context that
    [cancel] closes, [closeOnce_done] that of the [sync.Once], and
    [conn_closed] records [conn.Close]. *)
Record Session := mkSession {
  s_pty : option Pty.PTY;
  ctx_done : bool;
  closeOnce_done : bool;
  conn_closed : bool
}.

(** The states of the specification, read off the fields. *)
Inductive state := Open | Draining | Closed.

Definition state_of (s : Session) : state :=
  if closeOnce_done s then Closed
  else if ctx_done s then Draining
  else Open.

Definition cancel (s : Session) : Session :=
  mkSession (s_pty s) true (closeOnce_done s) (conn_closed s).

Definition set_pty (s : Session) (p : Pty.PTY) : Session :=
  mkSession (Some p) (ctx_done s) (closeOnce_done s) (conn_closed s).

(** What the outside answers during one pass of a loop: at most one call of
    each kind is made per pass. *)
Record env := mkEnv {
  env_SHELL : string;
  start_result : nat * nat + error;
  write_result : option (nat * error);
  setsize_result : option error;
  signal_result : option error;
  conn_write_result : option error
}.

(** What a handler hands back: nil, an error, or a panic in flight. *)
Definition result := outcome unit.

Definition of_error (e : option error) : result :=
  match e with
  | None => Ok tt
  | Some err => Err err
  end.

Section Platform.

Variable windows : bool.

(** [func (s *Session) sendMessage(msg *Message)] *)
Definition sendMessage (s : Session) (msg : Message) (w : option error)
  : Session * list event :=
  match Marshal msg with
  | Ok data =>
      match w with
      | None => (s, [ConnWrite BinaryMessage data None])
      | Some err =>
          (cancel s,
           [ConnWrite BinaryMessage data (Some err);
            LogPrintf ("Failed to write message: " ++ err)%string])
      end
  | Err err => (s, [LogPrintf ("Failed to marshal message: " ++ err)%string])
  | Panic _ => (s, [])
  end.

(** [func (s *Session) sendData(data []byte)] *)
Definition sendData (s : Session) (data : list byte) (w : option error) :=
  sendMessage s (mkMessage MsgTypeData data) w.

(** [func (s *Session) sendError(errMsg string)] *)
Definition sendError (s : Session) (errMsg : string) (w : option error) :=
  sendMessage s (mkMessage MsgTypeError (list_byte_of_string errMsg)) w.

(** The lazy creation shared by [handleData] and [handleResize]:
    [if s.pty == nil { NewPTY(80, 24) ...; s.pty = pty; go s.readFromPTY() }]. *)
Definition ensure_pty (s : Session) (e : env)
  : outcome Pty.PTY * Session * list event :=
  match s_pty s with
  | Some p => (Ok p, s, [])
  | None =>
      match Pty.NewPTY windows (env_SHELL e) 80 24 (start_result e) with
      | (Ok p, ev) => (Ok p, set_pty s p, ev ++ [GoReadFromPTY])
      | (Err err, ev) => (Err ("failed to create PTY: " ++ err)%string, s, ev)
      | (Panic q, ev) => (Panic q, s, ev)
      end
  end.

(** [func (s *Session) handleData(data []byte) error] *)
Definition handleData (s : Session) (data : list byte) (e : env)
  : result * Session * list event :=
  match ensure_pty s e with
  | (Ok p, s', ev) =>
      let '((_, err), ev') := Pty.Write p data (write_result e) in
      (of_error err, s', ev ++ ev')
  | (Err err, s', ev) => (Err err, s', ev)
  | (Panic q, s', ev) => (Panic q, s', ev)
  end.

(** [func (s *Session) handleResize(data []byte) error] *)
Definition handleResize (s : Session) (data : list byte) (e : env)
  : result * Session * list event :=
  match ensure_pty s e with
  | (Ok p, s', ev) =>
      match UnmarshalResizeData data with
      | Ok resizeData =>
          let '(err, ev') :=
            Pty.Resize p (Cols resizeData) (Rows resizeData) (setsize_result e) in
          (of_error err, s', ev ++ ev')
      | Err err =>
          (Err ("failed to unmarshal resize data: " ++ err)%string, s', ev)
      | Panic q => (Panic q, s', ev)
      end
  | (Err err, s', ev) => (Err err, s', ev)
  | (Panic q, s', ev) => (Panic q, s', ev)
  end.

(** [func (s *Session) handleControl(data []byte) error] *)
Definition handleControl (s : Session) (data : list byte) (e : env)
  : result * Session * list event :=
  match s_pty s with
  | None => (Err "no PTY available"%string, s, [])
  | Some p =>
      match data with
      | [] => (Err "invalid control data"%string, s, [])
      | signal :: _ =>
          let '(err, ev) :=
            Pty.SendSignal windows p (uint8_of signal) (signal_result e) in
          (of_error err, s, ev)
      end
  end.

(** [func (s *Session) handleMessage(data []byte) error] *)
Definition handleMessage (s : Session) (data : list byte) (e : env)
  : result * Session * list event :=
  match UnmarshalMessage data with
  | Err err => (Err ("failed to unmarshal message: " ++ err)%string, s, [])
  | Panic q => (Panic q, s, [])
  | Ok msg =>
      if Byte.eqb (Type_ msg) MsgTypeData then handleData s (Data msg) e
      else if Byte.eqb (Type_ msg) MsgTypeResize then handleResize s (Data msg) e
      else if Byte.eqb (Type_ msg) MsgTypeControl then handleControl s (Data msg) e
      else if Byte.eqb (Type_ msg) MsgTypeHeartbeat then (Ok tt, s, [])
      else if Byte.eqb (Type_ msg) MsgTypeClose then (Ok tt, cancel s, [])
      else (Err ("unknown message type: " ++ itoa (uint8_of (Type_ msg)))%string,
            s, [])
  end.

(** [func (s *Session) cleanup()].  This is what the body of the [Once] does
    when it runs to its end; [p.Close] takes the write side of the lock of
    the handle, which it obtains only once no [Read] of the pump is in
    progress, and that wait is not represented. *)
Definition cleanup (s : Session) : Session * list event :=
  if closeOnce_done s then (s, [])
  else
    match s_pty s with
    | Some p =>
        let '(p', ev) := Pty.Close windows p in
        (mkSession (Some p') true true true, ev ++ [ConnClose])
    | None => (mkSession None true true true, [ConnClose])
    end.

(** *** The reader loop, [handleConnection]

    One [tick] is one pass of the [for { select { ... } }] loop: whether some
    other activity of the session (heartbeat, pump) fired [cancel] since the
    previous pass, what [conn.ReadMessage] returned, and the answers of the
    outside world during the pass.  Deadlines and the ticker period are not
    modelled. *)

Inductive recv :=
| Received (data : list byte)
| RecvError (err : error) (unexpected_close : bool).

Record tick := mkTick {
  async_cancel : bool;
  tick_recv : recv;
  tick_env : env
}.

Inductive status :=
| Running                (* the loop is waiting for its next pass *)
| Returned               (* the function returned *)
| Panicked (q : panic).  (* a panic unwinds the goroutine; the process dies *)

Definition observe_cancel (b : bool) (s : Session) : Session :=
  if b then cancel s else s.

(** One pass of the loop of [handleConnection]. *)
Definition reader_step (t : tick) (s : Session) : status * Session * list event :=
  let s := observe_cancel (async_cancel t) s in
  if ctx_done s then (Returned, s, [])
  else
    match tick_recv t with
    | RecvError err unexpected =>
        (Returned, s,
         if unexpected then [LogPrintf ("WebSocket error: " ++ err)%string] else [])
    | Received data =>
        match handleMessage s data (tick_env t) with
        | (Ok _, s', ev) => (Running, s', ev)
        | (Err err, s', ev) =>
            let '(s'', ev') :=
              sendError s' ("Error: " ++ err)%string
                        (conn_write_result (tick_env t)) in
            (Running, s'',
             ev ++ [LogPrintf ("Message handling error: " ++ err)%string] ++ ev')
        | (Panic q, s', ev) => (Panicked q, s', ev)
        end
    end.

Fixpoint reader_loop (ts : list tick) (s : Session) : status * Session * list event :=
  match ts with
  | [] => (Running, s, [])
  | t :: ts' =>
      match reader_step t s with
      | (Running, s', ev) =>
          let '(st, s'', ev') := reader_loop ts' s' in (st, s'', ev ++ ev')
      | r => r
      end
  end.

(** [func (s *Session) handleConnection()].  The deferred calls run, last
    registered first, both when the loop returns and when a panic unwinds. *)
Definition handleConnection (ts : list tick) (s : Session)
  : status * Session * list event :=
  match reader_loop ts s with
  | (Running, s', ev) => (Running, s', GoHeartbeat :: ev)
  | (st, s', ev) =>
      let '(s'', ev') := cleanup s' in
      (st, s'', GoHeartbeat :: ev ++ [TickerStop] ++ ev')
  end.

(** *** The PTY-to-peer pump, [readFromPTY]

    One [pump_tick] is one pass of its loop: whether [cancel] was fired and
    whether [cleanup] closed the PTY handle since the previous pass, what the
    master answers to the read, and what the connection answers to the send. *)

Record pump_tick := mkPumpTick {
  pump_async_cancel : bool;
  pump_async_close : bool;
  pump_read : list byte + error;
  pump_conn_write : option error
}.

Definition observe_close (b : bool) (s : Session) : Session :=
  match s_pty s with
  | Some p =>
      if b then set_pty s (Pty.mkPTY (Pty.cmd_Process p) (Pty.pty p) true) else s
  | None => s
  end.

Definition pump_step (t : pump_tick) (s : Session) : status * Session * list event :=
  let s := observe_close (pump_async_close t) (observe_cancel (pump_async_cancel t) s) in
  if ctx_done s then (Returned, s, [])
  else
    match s_pty s with
    | None => (Returned, s, [])
    | Some p =>
        match Pty.Read p (pump_read t) with
        | ((_, Some err), ev) =>
            if negb (String.eqb err "EOF"%string)
            then
              let '(s', ev') :=
                sendError s ("PTY read error: " ++ err)%string (pump_conn_write t) in
              (Returned, s', ev ++ ev')
            else (Returned, s, ev)
        | ((buffer, None), ev) =>
            if len buffer >? 0
            then
              let '(s', ev') := sendData s buffer (pump_conn_write t) in
              (Running, s', ev ++ ev')
            else (Running, s, ev)
        end
    end.

Fixpoint pump_loop (ts : list pump_tick) (s : Session) : status * Session * list event :=
  match ts with
  | [] => (Running, s, [])
  | t :: ts' =>
      match pump_step t s with
      | (Running, s', ev) =>
          let '(st, s'', ev') := pump_loop ts' s' in (st, s'', ev ++ ev')
      | r => r
      end
  end.

(** [func (s *Session) readFromPTY()] *)
Definition buffer_size : Z := 4096.

Definition readFromPTY (ts : list pump_tick) (s : Session)
  : status * Session * list event :=
  if is_nil (s_pty s) then (Returned, s, []) else pump_loop ts s.

End Platform.

(** *** The heartbeat, [heartbeat]

    One [beat] is one wake-up of its [select]: whether [cancel] was fired by
    another activity since the previous one, which case was taken (when the
    context is done and the ticker has fired, Go picks either), and what the
    connection answers to the ping.  The case [<-s.ctx.Done()] can only be
    taken once the context is done; a beat that names it earlier leaves the
    goroutine blocked. *)

Inductive wake := WakeDone | WakeTicker.

Record beat := mkBeat {
  beat_async_cancel : bool;
  beat_wake : wake;
  beat_ping : option error
}.

Definition heartbeat_step (b : beat) (s : Session) : status * Session * list event :=
  let s := observe_cancel (beat_async_cancel b) s in
  match beat_wake b with
  | WakeDone => if ctx_done s then (Returned, s, []) else (Running, s, [])
  | WakeTicker =>
      match beat_ping b with
      | Some err => (Returned, cancel s, [ConnWrite PingMessage [] (Some err)])
      | None => (Running, s, [ConnWrite PingMessage [] None])
      end
  end.

(** [func (s *Session) heartbeat(ticker *time.Ticker)] *)
Fixpoint heartbeat (bs : list beat) (s : Session) : status * Session * list event :=
  match bs with
  | [] => (Running, s, [])
  | b :: bs' =>
      match heartbeat_step b s with
      | (Running, s', ev) =>
          let '(st, s'', ev') := heartbeat bs' s' in (st, s'', ev ++ ev')
      | r => r
      end
  end.

(** *** The handler and its session set

    Sessions are heap objects named by their address; [sessions] is the key
    set of the handler's [sync.Map] and [heap] holds the objects. *)

Record Server := mkServer {
  sessions : gset nat;
  heap : gmap nat Session
}.

(** [func NewHandler() *Handler] *)
Definition NewHandler : Server := mkServer ∅ ∅.

(** [func (h *Handler) createSession(conn *websocket.Conn) *Session] *)
Definition createSession : Session := mkSession None false false false.

(** [func (h *Handler) ServeHTTP(w, r)].  [upgrade] is the answer of
    [upgrader.Upgrade]; on success the address of the new session is returned
    to name the goroutine that [go session.handleConnection()] starts. *)
Definition ServeHTTP (upgrade : option error) (srv : Server) : Server * option nat :=
  match upgrade with
  | Some _ => (srv, None)
  | None =>
      let session := fresh (dom (heap srv)) in
      (mkServer ({[session]} ∪ sessions srv) (<[session := createSession]> (heap srv)),
       Some session)
  end.

(** The goroutine of session [session] runs [handleConnection] over the
    passes [ts]; a [Session] holds no reference to the handler, so the run
    can only change the session object itself. *)
Definition run_handleConnection (windows : bool) (session : nat) (ts : list tick)
    (srv : Server) : Server :=
  match heap srv !! session with
  | Some s =>
      let '(_, s', _) := handleConnection windows ts s in
      mkServer (sessions srv) (<[session := s']> (heap srv))
  | None => srv
  end.

(** [h.sessions.Range]: the sessions an enumeration of the registry visits. *)
Definition Range (srv : Server) : list nat := elements (sessions srv).

(** What can happen to the handler: a request is served, or the goroutine
    of a session runs. *)
Inductive server_op :=
| OpServe (upgrade : option error)
| OpRun (windows : bool) (session : nat) (ts : list tick).

Definition apply_op (srv : Server) (op : server_op) : Server :=
  match op with
  | OpServe upgrade => fst (ServeHTTP upgrade srv)
  | OpRun windows session ts => run_handleConnection windows session ts srv
  end.

Definition apply_ops (ops : list server_op) (srv : Server) : Server :=
  fold_left apply_op ops srv.

(** *** Vocabulary of the properties *)

(** A session whose PTY exists and has not been closed. *)
Definition live (s : Session) (p : Pty.PTY) : Prop :=
  s_pty s = Some p /\ Pty.closed p = false.

(** An environment in which the PTY can be started and takes every byte. *)
Definition pty_works (e : env) : Prop :=
  (exists fd pid, start_result e = inl (fd, pid)) /\ write_result e = None.

(** The payload a transport frame carries if it is a DATA frame. *)
Definition data_payload (w : list byte) : list byte :=
  match UnmarshalMessage w with
  | Ok m => if Byte.eqb (Type_ m) MsgTypeData then Data m else []
  | _ => []
  end.

(** The bytes the peer received in DATA frames, in order. *)
Definition peer_data (tr : list event) : list byte :=
  concat (map data_payload (peer_frames tr)).

(** The number of pumps started: the [go s.readFromPTY()] statements run. *)
Fixpoint pumps_started (tr : list event) : nat :=
  match tr with
  | [] => 0
  | GoReadFromPTY :: tr' => S (pumps_started tr')
  | _ :: tr' => pumps_started tr'
  end.

(** A transport frame that is the encoding of an ERROR frame carrying a
    text, and one that is the encoding of a DATA frame. *)
Definition is_error_frame (w : list byte) : Prop :=
  exists text, Marshal (mkMessage MsgTypeError (list_byte_of_string text)) = Ok w.

Definition is_data_frame (w : list byte) : Prop :=
  exists data, Marshal (mkMessage MsgTypeData data) = Ok w.

(** The requests of a run of the handler whose upgrade succeeded. *)
Fixpoint served (ops : list server_op) : nat :=
  match ops with
  | [] => 0
  | OpServe None :: ops' => S (served ops')
  | _ :: ops' => served ops'
  end.

(** A chunk of bytes that is a prefix of the payload of a DATA frame
    received in one of the passes [ts]. *)
Definition from_data_frame (ts : list tick) (chunk : list byte) : Prop :=
  exists t w d n,
    t ∈ ts /\ tick_recv t = Received w
    /\ UnmarshalMessage w = Ok (mkMessage MsgTypeData d) /\ chunk = take n d.

(** The transport frame of an ERROR message carrying [text], byte for byte:
    the type [04], the length of the text in two bytes, low byte first, and
    the bytes of the text. *)
Definition error_frame (text : string) : list byte :=
  x04 :: PutUint16 (len (list_byte_of_string text)) ++ list_byte_of_string text.

(** Concrete values used to run the code. *)
Definition pty0 : Pty.PTY := Pty.mkPTY (Some 7%nat) (Some 3%nat) false.
Definition session0 : Session := mkSession (Some pty0) false false false.
Definition env0 : env := mkEnv "/bin/sh" (inl (3%nat, 7%nat)) None None None None.
Definition env_write_fails : env :=
  mkEnv "/bin/sh" (inl (3%nat, 7%nat)) (Some (0%nat, "input/output error"%string))
        None None None.

Definition env_start_fails : env :=
  mkEnv "/bin/sh" (inr "fork failed"%string) None None None None.

(** The frame [01 01 00 61]: DATA with the payload [a]. *)
Definition data_a : list byte := [x01; x01; x00; x61].
(** The frame [03 01 00 02]: CONTROL with the signal 2. *)
Definition control_sigint : list byte := [x03; x01; x00; x02].
(** The frame [06 00 00]: CLOSE. *)
Definition close_frame : list byte := [x06; x00; x00].

(** The peer hangs up: the first read of the connection fails. *)
Definition peer_hangs_up : list tick :=
  [mkTick false (RecvError "EOF"%string false) env0].

(** The peer sends CLOSE; the next pass finds the context cancelled. *)
Definition peer_sends_close : list tick :=
  [mkTick false (Received close_frame) env0;
   mkTick false (Received data_a) env0].

End Terminal.

(** ** implementations.go: the injectable implementations *)

Module Impl.
Import Go Sys Protocol.

(** [type DefaultPTYSession struct]; as for [Pty.PTY], [cmd] is set by the
    only constructor, [CreatePTY]. *)
Record DefaultPTYSession := mkDefaultPTYSession {
  cmd_Process : option nat;
  pty : option nat;
  closed : bool
}.

(** [fmt.Errorf("session closed")] *)
Definition session_closed : error := "session closed"%string.

Section Platform.

Variable windows : bool.

(** [func (p *DefaultPTYProvider) CreatePTY(ctx, cols, rows)]; the command
    runs under the context of the caller, which a failure leaves alone. *)
Definition CreatePTY (SHELL : string) (cols rows : Z) (start : nat * nat + error)
  : outcome DefaultPTYSession * list event :=
  match start with
  | inr err => (Err err, [StartWithSize (Pty.shell_command windows SHELL) cols rows])
  | inl (fd, pid) =>
      (Ok (mkDefaultPTYSession (Some pid) (Some fd) false),
       [StartWithSize (Pty.shell_command windows SHELL) cols rows])
  end.

(** [func (s *DefaultPTYSession) Read(buf []byte) (int, error)] *)
Definition Read (s : DefaultPTYSession) (os : list byte + error)
  : (list byte * option error) * list event :=
  if closed s then (([], Some session_closed), [])
  else match os with
       | inl data => ((data, None), [FileRead])
       | inr err => (([], Some err), [FileRead])
       end.

(** [func (s *DefaultPTYSession) Write(data []byte) (int, error)] *)
Definition Write (s : DefaultPTYSession) (data : list byte) (os : option (nat * error))
  : (Z * option error) * list event :=
  if closed s then ((0, Some session_closed), [])
  else match os with
       | None => ((len data, None), [FileWrite data])
       | Some (n, err) => ((len (take n data), Some err), [FileWrite (take n data)])
       end.

(** [func (s *DefaultPTYSession) Resize(cols, rows uint16) error] *)
Definition Resize (s : DefaultPTYSession) (cols rows : Z) (os : option error)
  : option error * list event :=
  if closed s then (Some session_closed, [])
  else (os, [Setsize cols rows]).

(** [func (s *DefaultPTYSession) SendSignal(sig syscall.Signal) error] *)
Definition SendSignal (s : DefaultPTYSession) (sig : Z) (os : option error)
  : option error * list event :=
  if closed s || is_nil (cmd_Process s)
  then (Some session_closed, [])
  else if windows then (os, [ProcessKill])
  else (os, [ProcessSignal sig]).

(** [func (s *DefaultPTYSession) Close() error]; it always returns nil. *)
Definition Close (s : DefaultPTYSession) : DefaultPTYSession * list event :=
  if closed s then (s, [])
  else
    (mkDefaultPTYSession (cmd_Process s) (pty s) true,
     (if is_nil (pty s) then [] else [FileClose])
     ++ (if is_nil (cmd_Process s) then []
         else [if windows then ProcessKill else ProcessSignal SIGTERM])).

End Platform.

(** [func (e *BinaryMessageEncoder) EncodeMessage(msgType, data)] *)
Definition EncodeMessage (msgType : MessageType) (data : list byte)
  : outcome (list byte) :=
  Marshal (mkMessage msgType data).

(** [func (e *BinaryMessageEncoder) DecodeMessage(data []byte)] *)
Definition DecodeMessage (data : list byte) : outcome Message :=
  UnmarshalMessage data.

(** [type InMemorySessionStore struct]: its [sync.Map] from session ids to
    session pointers, a [gmap string nat]. *)

(** [func NewInMemorySessionStore()] *)
Definition NewInMemorySessionStore : gmap string nat := ∅.

(** [func (s *InMemorySessionStore) CreateSession(id, session) error] *)
Definition CreateSession (id : string) (session : nat) (st : gmap string nat)
  : gmap string nat * option error :=
  (<[id := session]> st, None).

(** [func (s *InMemorySessionStore) GetSession(id)]: [Some session] stands
    for [(session, true)] and [None] for [(nil, false)]. *)
Definition GetSession (id : string) (st : gmap string nat) : option nat :=
  st !! id.

(** [func (s *InMemorySessionStore) DeleteSession(id string) error] *)
Definition DeleteSession (id : string) (st : gmap string nat)
  : gmap string nat * option error :=
  (delete id st, None).

(** [func (s *InMemorySessionStore) ListSessions()]: the values met by
    [Range], whose order Go leaves unspecified. *)
Definition ListSessions (st : gmap string nat) : list nat :=
  (map_to_list st).*2.

End Impl.

(** ** useTerminal.ts: the codec of the client

    JavaScript numbers are modelled as integers; [DataView.setUint8] and
    [setUint16] store their argument modulo 256 and 65536. *)

Module Client.
Import Go Protocol.

(** [function encodeMessage(type, data)] *)
Definition encodeMessage (type : Z) (data : list byte) : list byte :=
  to_uint8 type :: PutUint16 (to_uint16 (len data)) ++ data.

(** [function decodeMessage(buffer)], [None] standing for [null]. *)
Definition decodeMessage (buffer : list byte) : option Message :=
  match buffer with
  | type :: b1 :: b2 :: rest =>
      let dataLength := Uint16 b1 b2 in
      if len buffer <? 3 + dataLength then None
      else Some (mkMessage type (take (Z.to_nat dataLength) rest))
  | _ => None
  end.

(** [function encodeResizeData(cols, rows)] *)
Definition encodeResizeData (cols rows : Z) : list byte :=
  PutUint16 (to_uint16 cols) ++ PutUint16 (to_uint16 rows).

(** The callbacks [sendData], [resize] and [sendControl] of the hook: the
    frame handed to [WebSocket.send], or nothing when the socket is not
    open. *)
Definition sendData (socket_open : bool) (dataBytes : list byte)
  : option (list byte) :=
  if socket_open then Some (encodeMessage 1 dataBytes) else None.

Definition resize (socket_open : bool) (cols rows : Z) : option (list byte) :=
  if socket_open then Some (encodeMessage 2 (encodeResizeData cols rows)) else None.

Definition sendControl (socket_open : bool) (signal : Z) : option (list byte) :=
  if socket_open then Some (encodeMessage 3 [to_uint8 signal]) else None.

End Client.

(** * Properties *)

(** ** Integers and slices *)

Module GoFacts.
Import Go.

Lemma uint8_of_range (b : byte) : 0 <= uint8_of b < 256.
Proof.
  unfold uint8_of. pose proof (Byte.to_N_bounded b). lia.
Qed.

Lemma uint8_of_to_uint8 (z : Z) : uint8_of (to_uint8 z) = z mod 256.
Proof.
  unfold uint8_of, to_uint8.
  assert (Hr : 0 <= z mod 256 < 256) by (apply Z.mod_pos_bound; lia).
  destruct (Byte.of_N (Z.to_N (z mod 256))) as [b|] eqn:E.
  - apply Byte.to_of_N in E. rewrite E. lia.
  - apply Byte.of_N_None_iff in E. lia.
Qed.

Lemma lor_shiftl_8 (a b : Z) :
  0 <= a < 256 -> 0 <= b -> Z.lor a (Z.shiftl b 8) = a + 256 * b.
Proof.
  intros Ha Hb. rewrite Z.shiftl_mul_pow2 by lia.
  assert (Hland : Z.land a (b * 2 ^ 8) = 0).
  { apply Z.bits_inj'. intros n Hn. rewrite Z.land_spec, Z.bits_0.
    destruct (Z.lt_ge_cases n 8) as [Hlt|Hge].
    - rewrite Z.mul_pow2_bits_low by lia. apply andb_false_r.
    - destruct (Z.eq_dec a 0) as [->|Hnz].
      + rewrite Z.bits_0. reflexivity.
      + rewrite (Z.bits_above_log2 a n); [reflexivity | lia |].
        assert (Z.log2 a < 8) by (apply Z.log2_lt_pow2; lia). lia. }
  rewrite <- Z.lxor_lor, <- Z.add_nocarry_lxor by exact Hland. lia.
Qed.

Lemma Uint16_spec (b0 b1 : byte) : Uint16 b0 b1 = uint8_of b0 + 256 * uint8_of b1.
Proof.
  unfold Uint16. pose proof (uint8_of_range b0). pose proof (uint8_of_range b1).
  apply lor_shiftl_8; lia.
Qed.

Lemma Uint16_range (b0 b1 : byte) : 0 <= Uint16 b0 b1 < 65536.
Proof.
  rewrite Uint16_spec.
  pose proof (uint8_of_range b0). pose proof (uint8_of_range b1). lia.
Qed.

(** Reading back what [PutUint16] stored gives the value stored. *)
Lemma Uint16_PutUint16 (v : Z) :
  0 <= v < 65536 ->
  Uint16 (to_uint8 v) (to_uint8 (Z.shiftr v 8)) = v.
Proof.
  intros Hv. rewrite Uint16_spec, !uint8_of_to_uint8.
  rewrite Z.shiftr_div_pow2 by lia. change (2 ^ 8) with 256.
  rewrite (Z.mod_small (v / 256)).
  - pose proof (Z.div_mod v 256). lia.
  - split; [apply Z.div_pos; lia | apply Z.div_lt_upper_bound; lia].
Qed.

Lemma len_nonneg {A} (s : list A) : 0 <= len s.
Proof. unfold len. lia. Qed.

Lemma len_app {A} (s t : list A) : len (s ++ t) = len s + len t.
Proof. unfold len. rewrite length_app. lia. Qed.

Lemma slice_ok {A} (s : list A) (lo hi : Z) :
  0 <= lo <= hi -> hi <= len s ->
  slice s lo hi = Ok (take (Z.to_nat (hi - lo)) (drop (Z.to_nat lo) s)).
Proof.
  intros [H0 H1] H2. unfold slice.
  rewrite (proj2 (Z.leb_le 0 lo) H0), (proj2 (Z.leb_le lo hi) H1),
          (proj2 (Z.leb_le hi (len s)) H2).
  reflexivity.
Qed.

Lemma slice_panic {A} (s : list A) (lo hi : Z) :
  hi < lo -> slice s lo hi = Panic (SliceBoundsOutOfRange lo hi).
Proof.
  intros H. unfold slice.
  rewrite (proj2 (Z.leb_gt lo hi) H), andb_false_r. reflexivity.
Qed.

End GoFacts.

(** ** The frame codec *)

Module Codec.
Import Go Protocol GoFacts.

Lemma len_frame {A} (a b c : A) (rest : list A) :
  len (a :: b :: c :: rest) = 3 + len rest.
Proof. unfold len. cbn [length]. lia. Qed.

(** Fewer than three bytes: the header test rejects the input. *)
Lemma UnmarshalMessage_short (data : list byte) :
  len data < 3 -> UnmarshalMessage data = Err "message too short"%string.
Proof.
  destruct data as [|a [|b [|c rest]]]; try reflexivity.
  rewrite len_frame. pose proof (len_nonneg rest). lia.
Qed.

(** A length field of at most 65532 and fewer payload bytes than it says. *)
Lemma UnmarshalMessage_truncated (t b1 b2 : byte) (rest : list byte) :
  Uint16 b1 b2 <= 65532 -> len rest < Uint16 b1 b2 ->
  UnmarshalMessage (t :: b1 :: b2 :: rest) = Err "incomplete message"%string.
Proof.
  intros Hs Hlt. pose proof (Uint16_range b1 b2) as Hr.
  unfold UnmarshalMessage, to_uint16.
  rewrite Z.mod_small by lia. rewrite len_frame.
  rewrite (proj2 (Z.ltb_lt (3 + len rest) (3 + Uint16 b1 b2))) by lia.
  reflexivity.
Qed.

(** A length field of at most 65532 that the input covers: the payload is
    the next [L] bytes, whatever follows them. *)
Lemma UnmarshalMessage_prefix (t b1 b2 : byte) (rest : list byte) :
  Uint16 b1 b2 <= 65532 -> Uint16 b1 b2 <= len rest ->
  UnmarshalMessage (t :: b1 :: b2 :: rest)
  = Ok (mkMessage t (take (Z.to_nat (Uint16 b1 b2)) rest)).
Proof.
  intros Hs Hle. pose proof (Uint16_range b1 b2) as Hr.
  unfold UnmarshalMessage, to_uint16.
  rewrite Z.mod_small by lia. rewrite len_frame.
  rewrite (proj2 (Z.ltb_ge (3 + len rest) (3 + Uint16 b1 b2))) by lia.
  rewrite slice_ok by (rewrite ?len_frame; lia).
  replace (3 + Uint16 b1 b2 - 3) with (Uint16 b1 b2) by lia.
  reflexivity.
Qed.

(** A length field of 65533 or more: [3+dataLen] wraps to 0, 1 or 2, the
    length test passes for every input, and the slice expression
    [data[3:3+dataLen]] has its upper bound below its lower bound. *)
Lemma UnmarshalMessage_wraps (t b1 b2 : byte) (rest : list byte) :
  65533 <= Uint16 b1 b2 ->
  UnmarshalMessage (t :: b1 :: b2 :: rest)
  = Panic (SliceBoundsOutOfRange 3 (Uint16 b1 b2 - 65533)).
Proof.
  intros Hs. pose proof (Uint16_range b1 b2) as Hr.
  pose proof (len_nonneg rest) as Hn.
  unfold UnmarshalMessage, to_uint16.
  replace ((3 + Uint16 b1 b2) mod 65536) with (Uint16 b1 b2 - 65533).
  2:{ apply (Z.mod_unique _ _ 1); lia. }
  rewrite len_frame.
  rewrite (proj2 (Z.ltb_ge (3 + len rest) (Uint16 b1 b2 - 65533))) by lia.
  rewrite slice_panic by lia. reflexivity.
Qed.

Lemma Marshal_ok (m : Message) :
  len (Data m) <= 65535 ->
  Marshal m = Ok (Type_ m :: PutUint16 (len (Data m)) ++ Data m).
Proof.
  intros H. pose proof (len_nonneg (Data m)). unfold Marshal, to_uint16.
  rewrite Z.gtb_ltb, (proj2 (Z.ltb_ge 65535 (len (Data m)))) by lia.
  rewrite Z.mod_small by lia. reflexivity.
Qed.

Lemma Marshal_too_large (m : Message) :
  65535 < len (Data m) -> Marshal m = Err "message data too large"%string.
Proof.
  intros H. unfold Marshal.
  rewrite Z.gtb_ltb, (proj2 (Z.ltb_lt 65535 (len (Data m)))) by lia.
  reflexivity.
Qed.

(** Encoding fails exactly on payloads longer than 65535 bytes. *)
Lemma Marshal_error_iff (m : Message) :
  (exists e, Marshal m = Err e) <-> 65535 < len (Data m).
Proof.
  split.
  - intros [e He]. destruct (Z.le_gt_cases (len (Data m)) 65535) as [Hle|Hgt].
    + rewrite Marshal_ok in He by exact Hle. discriminate.
    + exact Hgt.
  - intros H. eexists. apply Marshal_too_large, H.
Qed.

Lemma len_Marshal (m : Message) (w : list byte) :
  Marshal m = Ok w -> len w = 3 + len (Data m).
Proof.
  unfold Marshal. destruct (len (Data m) >? 65535); [discriminate|].
  intros [= <-]. apply len_frame.
Qed.

(** Round trip for payloads of at most 65532 bytes. *)
Lemma roundtrip (m : Message) :
  len (Data m) <= 65532 ->
  exists w, Marshal m = Ok w /\ len w = 3 + len (Data m)
            /\ UnmarshalMessage w = Ok m.
Proof.
  intros H. pose proof (len_nonneg (Data m)) as Hn.
  eexists. split; [apply Marshal_ok; lia|]. split; [apply len_frame|].
  cbn [PutUint16 app].
  rewrite UnmarshalMessage_prefix; rewrite Uint16_PutUint16 by lia; try lia.
  unfold len. rewrite Nat2Z.id, firstn_all. destruct m; reflexivity.
Qed.

(** Payloads of 65533, 65534 and 65535 bytes encode, and the decoder panics
    on the encoding. *)
Lemma roundtrip_wraps (m : Message) :
  65533 <= len (Data m) <= 65535 ->
  exists w, Marshal m = Ok w /\ len w = 3 + len (Data m)
            /\ UnmarshalMessage w
               = Panic (SliceBoundsOutOfRange 3 (len (Data m) - 65533)).
Proof.
  intros H.
  eexists. split; [apply Marshal_ok; lia|]. split; [apply len_frame|].
  cbn [PutUint16 app].
  rewrite UnmarshalMessage_wraps; rewrite Uint16_PutUint16 by lia; [reflexivity | lia].
Qed.

(** For a length field of at most 65532, decoding returns an error exactly
    when the input is shorter than three bytes or than [3 + L]. *)
Lemma UnmarshalMessage_error_iff (data : list byte) :
  length_field data <= 65532 ->
  (exists e, UnmarshalMessage data = Err e)
  <-> (len data < 3 \/ len data < 3 + length_field data).
Proof.
  intros HL. destruct (Z.lt_ge_cases (len data) 3) as [Hshort|Hlong].
  - rewrite UnmarshalMessage_short by exact Hshort.
    split; [intros _; left; exact Hshort | intros _; eexists; reflexivity].
  - destruct data as [|t [|b1 [|b2 rest]]];
      try (unfold len in Hlong; cbn [length] in Hlong; lia).
    cbn [length_field] in *. rewrite len_frame in Hlong |- *.
    pose proof (len_nonneg rest) as Hn.
    destruct (Z.lt_ge_cases (len rest) (Uint16 b1 b2)) as [Hlt|Hge].
    + rewrite UnmarshalMessage_truncated by assumption.
      split; [intros _; right; lia | intros _; eexists; reflexivity].
    + rewrite UnmarshalMessage_prefix by assumption.
      split; [intros [e He]; discriminate | intros [?|?]; lia].
Qed.

Lemma len_repeat {A} (x : A) (n : Z) : 0 <= n -> len (repeat x (Z.to_nat n)) = n.
Proof. intros H. unfold len. rewrite repeat_length. lia. Qed.

(** C5 (the round trip [decode (encode (type, payload)) = (type, payload)] for
    every payload of at most 65535 bytes) does not hold of the code: a DATA
    frame with a payload of 65533 bytes encodes to 65536 bytes, and
    [UnmarshalMessage] panics on these bytes instead of returning the frame,
    because [3+dataLen] is computed in [uint16] and wraps to 0. *)
Theorem roundtrip_panics_at_65533 :
  exists w,
    Marshal (mkMessage MsgTypeData (repeat x00 (Z.to_nat 65533))) = Ok w
    /\ len w = 3 + 65533
    /\ UnmarshalMessage w = Panic (SliceBoundsOutOfRange 3 0).
Proof.
  destruct (roundtrip_wraps (mkMessage MsgTypeData (repeat x00 (Z.to_nat 65533))))
    as (w & Hm & Hl & Hu).
  - cbn [Data]. rewrite len_repeat; lia.
  - cbn [Data] in Hl, Hu. rewrite len_repeat in Hl, Hu by lia.
    exists w. auto.
Qed.

(** C6 (decoding fails with an error exactly on short or truncated input and
    succeeds on every other input) does not hold of the code: the three bytes
    [01 FD FF] announce 65533 payload bytes and carry none, yet
    [UnmarshalMessage] returns no error for them: the wrapped bound [3+dataLen]
    is 0, the length test passes and the slice expression panics. *)
Theorem truncated_frame_panics :
  len [x01; xfd; xff] < 3 + length_field [x01; xfd; xff]
  /\ UnmarshalMessage [x01; xfd; xff] = Panic (SliceBoundsOutOfRange 3 0).
Proof.
  split; [vm_compute; reflexivity|].
  rewrite UnmarshalMessage_wraps; vm_compute; [reflexivity | discriminate].
Qed.

(** C10 (every input at least as long as three bytes plus its length field
    [L] decodes to the [L] bytes after the header, trailing bytes ignored)
    does not hold of the code: with [L = 65533] and 65534 bytes after the
    header, the input covers the announced payload and one trailing byte, and
    [UnmarshalMessage] panics. *)
Theorem covered_frame_panics :
  let data := x02 :: xfd :: xff :: repeat x00 (Z.to_nat 65534) in
  length_field data = 65533
  /\ 3 + length_field data <= len data
  /\ UnmarshalMessage data = Panic (SliceBoundsOutOfRange 3 0).
Proof.
  assert (HL : Uint16 xfd xff = 65533) by (vm_compute; reflexivity).
  cbv zeta. cbn [length_field]. rewrite len_frame, len_repeat by lia.
  split; [exact HL|]. split; [lia|].
  rewrite UnmarshalMessage_wraps; rewrite HL; [reflexivity | lia].
Qed.

End Codec.

(** ** The PTY handle *)

Module PtyFacts.
Import Go Sys Pty.

Lemma Close_closed (windows : bool) (p : PTY) :
  closed (fst (Close windows p)) = true.
Proof.
  unfold Close. destruct (closed p) eqn:E; [exact E | reflexivity].
Qed.

Lemma Close_idempotent (windows : bool) (p : PTY) :
  closed p = true -> Close windows p = (p, []).
Proof. intros H. unfold Close. rewrite H. reflexivity. Qed.

(** C7 as stated (every operation after close fails with the closed-pipe
    error) is false for [Read]: on a closed handle it returns [io.EOF]. *)
Lemma read_after_close_is_EOF :
  let p := fst (Close false (mkPTY (Some 7%nat) (Some 3%nat) false)) in
  Read p (inl [x61]) = (([], Some io_EOF), [])
  /\ Read p (inl [x61]) <> (([], Some io_ErrClosedPipe), []).
Proof. split; [reflexivity | discriminate]. Qed.

(** C7, amended: after [Close] has run, [Write], [Resize] and [SendSignal]
    fail with [io.ErrClosedPipe] and [Read] fails with [io.EOF]; none of the
    four reaches the master or the child (no event), whatever the outside
    would have answered; and a second [Close] changes nothing and reaches
    nothing. *)
Theorem operations_after_close (windows : bool) (p : PTY)
    (r : list byte + error) (data : list byte) (w : option (nat * error))
    (cols rows sig : Z) (o : option error) :
  let p' := fst (Close windows p) in
  Read p' r = (([], Some io_EOF), [])
  /\ Write p' data w = ((0, Some io_ErrClosedPipe), [])
  /\ Resize p' cols rows o = (Some io_ErrClosedPipe, [])
  /\ SendSignal windows p' sig o = (Some io_ErrClosedPipe, [])
  /\ Close windows p' = (p', []).
Proof.
  intros p'. pose proof (Close_closed windows p) as Hc. fold p' in Hc.
  unfold Read, Write, Resize, SendSignal. rewrite Hc. cbn [orb].
  repeat split. apply Close_idempotent, Hc.
Qed.

End PtyFacts.

(** ** Sessions: the handlers and one pass of each loop *)

Module SessionFacts.
Import Go Sys Protocol Terminal.

Section Platform.

Variable windows : bool.

Lemma ensure_pty_present (s : Session) (p : Pty.PTY) (e : env) :
  s_pty s = Some p -> ensure_pty windows s e = (Ok p, s, []).
Proof. intros H. unfold ensure_pty. rewrite H. reflexivity. Qed.

Lemma handleMessage_data (s : Session) (wire payload : list byte) (e : env) :
  UnmarshalMessage wire = Ok (mkMessage MsgTypeData payload) ->
  handleMessage windows s wire e = handleData windows s payload e.
Proof. intros H. unfold handleMessage. rewrite H. reflexivity. Qed.

Lemma handleMessage_resize (s : Session) (wire payload : list byte) (e : env) :
  UnmarshalMessage wire = Ok (mkMessage MsgTypeResize payload) ->
  handleMessage windows s wire e = handleResize windows s payload e.
Proof. intros H. unfold handleMessage. rewrite H. reflexivity. Qed.

Lemma handleMessage_control (s : Session) (wire payload : list byte) (e : env) :
  UnmarshalMessage wire = Ok (mkMessage MsgTypeControl payload) ->
  handleMessage windows s wire e = handleControl windows s payload e.
Proof. intros H. unfold handleMessage. rewrite H. reflexivity. Qed.

(** A pass that receives a frame while the session is not cancelled. *)
Lemma reader_step_received (s : Session) (wire : list byte) (e : env) :
  ctx_done s = false ->
  reader_step windows (mkTick false (Received wire) e) s
  = match handleMessage windows s wire e with
    | (Ok _, s', ev) => (Running, s', ev)
    | (Err err, s', ev) =>
        let '(s'', ev') :=
          sendError s' ("Error: " ++ err)%string (conn_write_result e) in
        (Running, s'',
         ev ++ [LogPrintf ("Message handling error: " ++ err)%string] ++ ev')
    | (Panic q, s', ev) => (Panicked q, s', ev)
    end.
Proof.
  intros H. unfold reader_step. cbn [async_cancel observe_cancel tick_recv tick_env].
  rewrite H. reflexivity.
Qed.

(** Sending a frame changes nothing of the session unless the write fails. *)
Lemma sendMessage_ok (s : Session) (m : Message) :
  fst (sendMessage s m None) = s.
Proof. unfold sendMessage. destruct (Marshal m); reflexivity. Qed.

Lemma sendMessage_pty (s : Session) (m : Message) (w : option error) :
  s_pty (fst (sendMessage s m w)) = s_pty s.
Proof. unfold sendMessage. destruct (Marshal m), w; reflexivity. Qed.

Lemma sendMessage_closeOnce (s : Session) (m : Message) (w : option error) :
  closeOnce_done (fst (sendMessage s m w)) = closeOnce_done s.
Proof. unfold sendMessage. destruct (Marshal m), w; reflexivity. Qed.

(** *** Reporting an error to the peer, spelled out *)

(** A text of at most 65535 bytes: one ERROR frame is written; a failure of
    the write is logged and cancels the session. *)
Lemma sendError_fits (s : Session) (text : string) (w : option error) :
  len (list_byte_of_string text) <= 65535 ->
  sendError s text w
  = match w with
    | None => (s, [ConnWrite BinaryMessage (error_frame text) None])
    | Some werr =>
        (cancel s,
         [ConnWrite BinaryMessage (error_frame text) (Some werr);
          LogPrintf ("Failed to write message: " ++ werr)%string])
    end.
Proof.
  intros H. unfold sendError, sendMessage.
  rewrite Codec.Marshal_ok by exact H. destruct w; reflexivity.
Qed.

(** A longer text cannot be encoded: nothing is written, the failure is
    logged. *)
Lemma sendError_too_long (s : Session) (text : string) (w : option error) :
  65535 < len (list_byte_of_string text) ->
  sendError s text w
  = (s, [LogPrintf "Failed to marshal message: message data too large"]).
Proof.
  intros H. unfold sendError, sendMessage.
  rewrite Codec.Marshal_too_large by exact H. reflexivity.
Qed.

(** The decoder of the peer reads the text back from the frame. *)
Lemma error_frame_decodes (text : string) :
  len (list_byte_of_string text) <= 65535 ->
  Client.decodeMessage (error_frame text)
  = Some (mkMessage MsgTypeError (list_byte_of_string text)).
Proof.
  intros H. pose proof (GoFacts.len_nonneg (list_byte_of_string text)) as Hn.
  unfold error_frame. cbn [PutUint16 app]. unfold Client.decodeMessage.
  rewrite GoFacts.Uint16_PutUint16 by lia. rewrite Codec.len_frame.
  rewrite (proj2 (Z.ltb_ge _ _)) by lia.
  unfold len. rewrite Nat2Z.id, firstn_all. reflexivity.
Qed.

(** A pass whose handler returns an error whose report fits a frame: the
    error is logged, the ERROR frame is written, and the loop goes on. *)
Lemma reader_step_reports (s s1 : Session) (w : list byte) (e : env)
    (text : string) (ev : list event) :
  ctx_done s = false ->
  handleMessage windows s w e = (Err text, s1, ev) ->
  len (list_byte_of_string ("Error: " ++ text)) <= 65535 ->
  reader_step windows (mkTick false (Received w) e) s
  = match conn_write_result e with
    | None =>
        (Running, s1,
         ev ++ [LogPrintf ("Message handling error: " ++ text)%string;
                ConnWrite BinaryMessage (error_frame ("Error: " ++ text)) None])
    | Some werr =>
        (Running, cancel s1,
         ev ++ [LogPrintf ("Message handling error: " ++ text)%string;
                ConnWrite BinaryMessage (error_frame ("Error: " ++ text)) (Some werr);
                LogPrintf ("Failed to write message: " ++ werr)%string])
    end.
Proof.
  intros Hd Hh Hfit. rewrite reader_step_received by exact Hd. rewrite Hh.
  rewrite sendError_fits by exact Hfit.
  destruct (conn_write_result e); reflexivity.
Qed.

(** C4, amended: a RESIZE payload is consumed successfully exactly when it
    has at least four bytes; the dimensions are the two little-endian
    [uint16]s of its first four bytes, further bytes are ignored, and the
    dimensions are applied to the PTY whatever their values, zero included.
    A shorter payload is rejected and nothing reaches the PTY. *)
Theorem resize_consumed (s : Session) (p : Pty.PTY) (data : list byte) (e : env) :
  live s p ->
  (len data < 4 ->
     handleResize windows s data e
     = (Err "failed to unmarshal resize data: invalid resize data"%string, s, []))
  /\ (4 <= len data ->
      exists c0 c1 r0 r1 rest,
        data = c0 :: c1 :: r0 :: r1 :: rest
        /\ UnmarshalResizeData data = Ok (mkResizeData (Uint16 c0 c1) (Uint16 r0 r1))
        /\ handleResize windows s data e
           = (of_error (setsize_result e), s,
              [Setsize (Uint16 c0 c1) (Uint16 r0 r1)])).
Proof.
  intros [Hp Hc]. unfold handleResize. rewrite (ensure_pty_present _ _ _ Hp).
  destruct data as [|c0 [|c1 [|r0 [|r1 rest]]]]; unfold len; cbn [length];
    (split; intros Hlen; [try lia; reflexivity | try lia]).
  exists c0, c1, r0, r1, rest. repeat split.
  cbn [UnmarshalResizeData Cols Rows]. unfold Pty.Resize. rewrite Hc. reflexivity.
Qed.

(** C2, amended: when writing a DATA payload to a live PTY returns an error,
    the pass does not end the reader loop and the session does not close: the
    error is logged and, when the text [Error: ] followed by the error has at
    most 65535 bytes, it is written to the peer in an ERROR frame carrying
    that text, which the decoder of the peer reads back; the session is left
    as it was when the frame is written without error and is cancelled only
    when writing the frame fails.  A longer text cannot be encoded and is
    only logged. *)
Theorem write_error_reported (s : Session) (p : Pty.PTY) (wire payload : list byte)
    (e : env) (n : nat) (err : error) :
  ctx_done s = false -> live s p ->
  UnmarshalMessage wire = Ok (mkMessage MsgTypeData payload) ->
  write_result e = Some (n, err) ->
  let text := ("Error: " ++ err)%string in
  let pass := reader_step windows (mkTick false (Received wire) e) s in
  (len (list_byte_of_string text) <= 65535 ->
   pass
   = match conn_write_result e with
     | None =>
         (Running, s,
          [FileWrite (take n payload);
           LogPrintf ("Message handling error: " ++ err)%string;
           ConnWrite BinaryMessage (error_frame text) None])
     | Some werr =>
         (Running, cancel s,
          [FileWrite (take n payload);
           LogPrintf ("Message handling error: " ++ err)%string;
           ConnWrite BinaryMessage (error_frame text) (Some werr);
           LogPrintf ("Failed to write message: " ++ werr)%string])
     end
   /\ Client.decodeMessage (error_frame text)
      = Some (mkMessage MsgTypeError (list_byte_of_string text)))
  /\ (65535 < len (list_byte_of_string text) ->
      pass
      = (Running, s,
         [FileWrite (take n payload);
          LogPrintf ("Message handling error: " ++ err)%string;
          LogPrintf "Failed to marshal message: message data too large"])).
Proof.
  intros Hd [Hp Hc] Hwire Hw text pass.
  assert (Hh : handleMessage windows s wire e
               = (Err err, s, [FileWrite (take n payload)])).
  { rewrite (handleMessage_data _ _ _ _ Hwire). unfold handleData.
    rewrite (ensure_pty_present _ _ _ Hp). unfold Pty.Write. rewrite Hc, Hw.
    reflexivity. }
  split.
  - intros Hfit. split; [|apply error_frame_decodes; exact Hfit].
    unfold pass. rewrite (reader_step_reports _ _ _ _ _ _ Hd Hh Hfit).
    destruct (conn_write_result e); reflexivity.
  - intros Hlong. unfold pass. rewrite reader_step_received by exact Hd.
    rewrite Hh. fold text. rewrite sendError_too_long by exact Hlong. reflexivity.
Qed.

(** C3, amended: when the read of the pump returns the clean end of file
    (from the master, or from a handle that is already closed), the pump
    returns without writing anything to the peer, so no ERROR frame is sent;
    it does not fire the cancellation of the session, which is left exactly
    as it was. *)
Theorem pump_clean_eof (s : Session) (p : Pty.PTY) (t : pump_tick) :
  pump_async_cancel t = false -> pump_async_close t = false ->
  ctx_done s = false -> s_pty s = Some p ->
  snd (fst (Pty.Read p (pump_read t))) = Some io_EOF ->
  exists ev,
    pump_step t s = (Returned, s, ev)
    /\ (ev = [] \/ ev = [FileRead])
    /\ peer_frames ev = []
    /\ state_of s = (if closeOnce_done s then Closed else Open).
Proof.
  intros Hac Hcl Hd Hp Hr.
  assert (Hobs : observe_close (pump_async_close t)
                   (observe_cancel (pump_async_cancel t) s) = s).
  { rewrite Hac, Hcl. unfold observe_close, observe_cancel.
    destruct (s_pty s); reflexivity. }
  unfold pump_step. rewrite Hobs, Hd, Hp.
  destruct (Pty.Read p (pump_read t)) as [[buffer oerr] ev] eqn:E.
  cbn [fst snd] in Hr. subst oerr. cbn [io_EOF String.eqb negb].
  exists ev. split; [reflexivity|].
  assert (Hev : ev = [] \/ ev = [FileRead]).
  { unfold Pty.Read in E. destruct (Pty.closed p); [|destruct (pump_read t)];
      try discriminate E; inversion E; auto. }
  split; [exact Hev|]. split.
  - destruct Hev as [-> | ->]; reflexivity.
  - unfold state_of. rewrite Hd. reflexivity.
Qed.

(** C8, amended: for every frame that an open session receives and decodes
    to a CONTROL frame: without a PTY -- whatever the payload, the empty one
    included -- the error [no PTY available] is logged and written to the
    peer in an ERROR frame, the loop goes on and no PTY is created; with a
    PTY and an empty payload the frame is rejected in the same way with
    [invalid control data]; with a PTY and at least one payload octet, the
    first octet is the signal passed to [SendSignal] and the loop goes on,
    and when the PTY is live [SendSignal] delivers that signal to the child
    (on Windows it kills the child).  A rejected frame cancels the session
    only when writing its ERROR frame fails, and a signal sent without error
    leaves the session unchanged. *)
Theorem control_frame (s : Session) (wire data : list byte) (e : env) :
  ctx_done s = false ->
  UnmarshalMessage wire = Ok (mkMessage MsgTypeControl data) ->
  let pass := reader_step windows (mkTick false (Received wire) e) s in
  let rejected (text : string) :=
    match conn_write_result e with
    | None =>
        (Running, s,
         [LogPrintf ("Message handling error: " ++ text)%string;
          ConnWrite BinaryMessage (error_frame ("Error: " ++ text)) None])
    | Some werr =>
        (Running, cancel s,
         [LogPrintf ("Message handling error: " ++ text)%string;
          ConnWrite BinaryMessage (error_frame ("Error: " ++ text)) (Some werr);
          LogPrintf ("Failed to write message: " ++ werr)%string])
    end in
  (s_pty s = None ->
     pass = rejected "no PTY available"%string
     /\ s_pty (snd (fst pass)) = None)
  /\ (forall p, s_pty s = Some p -> data = [] ->
        pass = rejected "invalid control data"%string)
  /\ (forall p signal rest,
        s_pty s = Some p -> data = signal :: rest ->
        let r := Pty.SendSignal windows p (uint8_of signal) (signal_result e) in
        handleControl windows s data e = (of_error (fst r), s, snd r)
        /\ (exists s' ev', pass = (Running, s', snd r ++ ev'))
        /\ (fst r = None -> pass = (Running, s, snd r))
        /\ (Pty.closed p = false -> is_nil (Pty.cmd_Process p) = false ->
            snd r = [if windows then ProcessKill
                     else ProcessSignal (uint8_of signal)]))
  /\ Client.decodeMessage (error_frame "Error: no PTY available")
     = Some (mkMessage MsgTypeError
               (list_byte_of_string "Error: no PTY available"))
  /\ Client.decodeMessage (error_frame "Error: invalid control data")
     = Some (mkMessage MsgTypeError
               (list_byte_of_string "Error: invalid control data")).
Proof.
  intros Hd Hwire pass rejected.
  split; [|split; [|split; [|split; apply error_frame_decodes; vm_compute; discriminate]]].
  - intros Hp.
    assert (Hh : handleMessage windows s wire e
                 = (Err "no PTY available"%string, s, [])).
    { rewrite (handleMessage_control _ _ _ _ Hwire). unfold handleControl.
      rewrite Hp. reflexivity. }
    assert (Hpass : pass = rejected "no PTY available"%string).
    { unfold pass.
      rewrite (reader_step_reports _ _ _ _ _ _ Hd Hh ltac:(vm_compute; discriminate)).
      reflexivity. }
    split; [exact Hpass|]. rewrite Hpass. unfold rejected.
    destruct (conn_write_result e); exact Hp.
  - intros p Hp ->.
    assert (Hh : handleMessage windows s wire e
                 = (Err "invalid control data"%string, s, [])).
    { rewrite (handleMessage_control _ _ _ _ Hwire). unfold handleControl.
      rewrite Hp. reflexivity. }
    unfold pass.
    rewrite (reader_step_reports _ _ _ _ _ _ Hd Hh ltac:(vm_compute; discriminate)).
    reflexivity.
  - intros p signal rest Hp ->. unfold pass.
    rewrite reader_step_received by exact Hd.
    rewrite (handleMessage_control _ _ _ _ Hwire). unfold handleControl.
    rewrite Hp.
    destruct (Pty.SendSignal windows p (uint8_of signal) (signal_result e))
      as [[err|] ev] eqn:Er; cbn [of_error fst snd].
    + split; [reflexivity|]. split; [|split].
      * destruct (sendError s ("Error: " ++ err)%string (conn_write_result e))
          as [s' ev']. eexists _, _. reflexivity.
      * intros [=].
      * intros Hc Hpid. unfold Pty.SendSignal in Er. rewrite Hc, Hpid in Er.
        cbn [orb] in Er. destruct windows; injection Er as _ <-; reflexivity.
    + split; [reflexivity|]. split; [|split].
      * exists s, []. rewrite app_nil_r. reflexivity.
      * intros _. reflexivity.
      * intros Hc Hpid. unfold Pty.SendSignal in Er. rewrite Hc, Hpid in Er.
        cbn [orb] in Er. destruct windows; injection Er as _ <-; reflexivity.
Qed.

End Platform.

(** C4 as stated is false: a payload of five bytes with both dimensions zero
    is consumed, and [0 x 0] is applied to the PTY. *)
Lemma zero_resize_applied :
  len [x00; x00; x00; x00; xff] = 5
  /\ UnmarshalResizeData [x00; x00; x00; x00; xff] = Ok (mkResizeData 0 0)
  /\ handleResize false session0 [x00; x00; x00; x00; xff] env0
     = (Ok tt, session0, [Setsize 0 0]).
Proof. vm_compute. repeat split. Qed.

Lemma resize_consumed_witness :
  live session0 pty0
  /\ handleResize false session0 [x84; x00; x32; x00] env0
     = (Ok tt, session0, [Setsize 132 50]).
Proof.
  split; [split; reflexivity|].
  destruct (resize_consumed false session0 pty0 [x84; x00; x32; x00] env0
              (conj eq_refl eq_refl)) as [_ H].
  destruct (H ltac:(vm_compute; discriminate)) as (c0 & c1 & r0 & r1 & rest & Hd & _ & Hh).
  injection Hd as <- <- <- <- _. exact Hh.
Defined.

(** C2 as stated is false: the PTY write fails, the pass ends with the loop
    still running and the session still open. *)
Lemma write_error_keeps_session_open :
  exists ev,
    reader_step false (mkTick false (Received data_a) env_write_fails) session0
    = (Running, session0, ev)
    /\ state_of session0 = Open.
Proof. eexists. vm_compute. split; reflexivity. Qed.

Lemma write_error_reported_witness :
  (ctx_done session0 = false /\ live session0 pty0)
  /\ reader_step false (mkTick false (Received data_a) env_write_fails) session0
     = (Running, session0,
        [FileWrite [];
         LogPrintf "Message handling error: input/output error";
         ConnWrite BinaryMessage (error_frame "Error: input/output error") None]).
Proof.
  split; [repeat split|].
  destruct (write_error_reported false session0 pty0 data_a [x61] env_write_fails
              0%nat "input/output error"%string
              eq_refl (conj eq_refl eq_refl) eq_refl eq_refl) as [Hfit _].
  destruct (Hfit ltac:(vm_compute; discriminate)) as [Hstep _]. exact Hstep.
Defined.

End SessionFacts.

(** ** The life of a session and the handler's session set *)

Module Lifecycle.
Import Go Sys Protocol Terminal SessionFacts.

Ltac crush_handlers :=
  unfold reader_step, handleMessage, handleData, handleResize, handleControl,
    ensure_pty, sendError, sendData, sendMessage, Pty.NewPTY, Pty.Write,
    Pty.Resize, Pty.SendSignal, observe_cancel, cancel, set_pty;
  repeat case_match; simplify_eq; try reflexivity.

(** No pass of the reader loop touches the one-shot guard of [cleanup]. *)
Lemma reader_step_closeOnce (windows : bool) (t : tick) (s : Session) :
  closeOnce_done (snd (fst (reader_step windows t s))) = closeOnce_done s.
Proof. crush_handlers. Qed.

Lemma reader_loop_closeOnce (windows : bool) (ts : list tick) (s : Session) :
  closeOnce_done (snd (fst (reader_loop windows ts s))) = closeOnce_done s.
Proof.
  revert s. induction ts as [|t ts IH]; intros s; [reflexivity|].
  cbn [reader_loop]. pose proof (reader_step_closeOnce windows t s) as Hstep.
  destruct (reader_step windows t s) as [[st s'] ev]. cbn [fst snd] in Hstep.
  destruct st; try exact Hstep.
  specialize (IH s'). destruct (reader_loop windows ts s') as [[st' s''] ev'].
  cbn [fst snd] in *. congruence.
Qed.

(** What [cleanup] leaves behind the first time it runs. *)
Lemma cleanup_closes (windows : bool) (s : Session) :
  closeOnce_done s = false ->
  let s' := fst (cleanup windows s) in
  state_of s' = Closed /\ ctx_done s' = true /\ conn_closed s' = true
  /\ (forall p, s_pty s' = Some p -> Pty.closed p = true).
Proof.
  intros H. unfold cleanup. rewrite H. destruct (s_pty s) as [p|] eqn:Hp.
  - pose proof (PtyFacts.Close_closed windows p) as Hc.
    destruct (Pty.Close windows p) as [p' ev]. cbn [fst] in *.
    repeat split. intros q [= <-]. exact Hc.
  - cbn. repeat split. intros q [=].
Qed.

(** When [handleConnection] is over, [cleanup] has run on the session. *)
Lemma handleConnection_closes (windows : bool) (ts : list tick) (s : Session) :
  closeOnce_done s = false ->
  fst (fst (handleConnection windows ts s)) <> Running ->
  let s' := snd (fst (handleConnection windows ts s)) in
  state_of s' = Closed /\ ctx_done s' = true /\ conn_closed s' = true
  /\ (forall p, s_pty s' = Some p -> Pty.closed p = true).
Proof.
  intros H Hfin. unfold handleConnection in *.
  pose proof (reader_loop_closeOnce windows ts s) as Hl.
  destruct (reader_loop windows ts s) as [[st s1] ev]. cbn [fst snd] in Hl.
  rewrite H in Hl. pose proof (cleanup_closes windows s1 Hl) as Hc.
  destruct (cleanup windows s1) as [s2 ev2]. cbn [fst] in Hc.
  destruct st; cbn [fst snd] in *; [congruence | exact Hc | exact Hc].
Qed.

(** Running the goroutine of a session to its end closes the session and
    leaves the session set of the handler as it was. *)
Lemma finished_session_registered (windows : bool) (srv : Server) (session : nat)
    (ts : list tick) (s : Session) :
  heap srv !! session = Some s -> closeOnce_done s = false ->
  fst (fst (handleConnection windows ts s)) <> Running ->
  let srv' := run_handleConnection windows session ts srv in
  (exists s', heap srv' !! session = Some s' /\ state_of s' = Closed
              /\ ctx_done s' = true /\ conn_closed s' = true
              /\ (forall p, s_pty s' = Some p -> Pty.closed p = true))
  /\ sessions srv' = sessions srv.
Proof.
  intros Hh Hc Hfin. unfold run_handleConnection. rewrite Hh.
  pose proof (handleConnection_closes windows ts s Hc Hfin) as Hs.
  destruct (handleConnection windows ts s) as [[st s'] ev]. cbn [fst snd] in Hs.
  cbn [heap sessions]. split; [|reflexivity].
  exists s'. split; [apply lookup_insert_eq | exact Hs].
Qed.

Lemma ServeHTTP_registers (srv srv1 : Server) (session : nat) :
  ServeHTTP None srv = (srv1, Some session) ->
  heap srv1 !! session = Some createSession /\ session ∈ sessions srv1.
Proof.
  unfold ServeHTTP. intros [= <- <-]. cbn [heap sessions]. split.
  - apply lookup_insert_eq.
  - set_solver.
Qed.

(** C1, amended: once the goroutine of a registered session has run to its
    end, [cleanup] has run: the session is [Closed], its context is cancelled,
    its connection and its PTY handle (if any) are closed; the cleanup does
    not touch the session set of the handler, so the session is still in it
    and an enumeration of the set still yields it. *)
Theorem closed_session_stays_registered (windows : bool) (srv srv1 : Server)
    (session : nat) (ts : list tick) :
  ServeHTTP None srv = (srv1, Some session) ->
  fst (fst (handleConnection windows ts createSession)) <> Running ->
  let srv2 := run_handleConnection windows session ts srv1 in
  (exists s', heap srv2 !! session = Some s' /\ state_of s' = Closed
              /\ ctx_done s' = true /\ conn_closed s' = true
              /\ (forall p, s_pty s' = Some p -> Pty.closed p = true))
  /\ sessions srv2 = sessions srv1
  /\ session ∈ Range srv2.
Proof.
  intros Hserve Hfin srv2.
  destruct (ServeHTTP_registers _ _ _ Hserve) as [Hh Hin].
  destruct (finished_session_registered windows srv1 session ts createSession
              Hh eq_refl Hfin) as [Hs Hreg].
  fold srv2 in Hs, Hreg. split; [exact Hs|]. split; [exact Hreg|].
  unfold Range. rewrite elem_of_elements, Hreg. exact Hin.
Qed.

End Lifecycle.

(** ** Concrete runs *)

Module Runs.
Import Go Sys Protocol Terminal SessionFacts Lifecycle.

(** C3 as stated is false: the pump meets the clean end of file and returns,
    and the session is still [Open]: its cancellation has not been fired. *)
Lemma pump_eof_leaves_session_open :
  readFromPTY [mkPumpTick false false (inr io_EOF) None] session0
  = (Returned, session0, [FileRead])
  /\ ctx_done session0 = false
  /\ state_of session0 = Open.
Proof. vm_compute. repeat split. Qed.

Lemma pump_clean_eof_witness :
  (ctx_done session0 = false /\ s_pty session0 = Some pty0)
  /\ exists ev,
       pump_step (mkPumpTick false false (inr io_EOF) None) session0
       = (Returned, session0, ev)
       /\ peer_frames ev = [].
Proof.
  split; [split; reflexivity|].
  destruct (pump_clean_eof session0 pty0 (mkPumpTick false false (inr io_EOF) None)
              eq_refl eq_refl eq_refl eq_refl eq_refl) as (ev & Hstep & _ & Hframes & _).
  exists ev. split; assumption.
Defined.

Lemma control_frame_witness :
  (ctx_done createSession = false
   /\ UnmarshalMessage control_sigint = Ok (mkMessage MsgTypeControl [x02]))
  /\ reader_step false (mkTick false (Received control_sigint) env0) createSession
     = (Running, createSession,
        [LogPrintf "Message handling error: no PTY available";
         ConnWrite BinaryMessage (error_frame "Error: no PTY available") None])
  /\ snd (Pty.SendSignal false pty0 (uint8_of x02) (signal_result env0))
     = [ProcessSignal (uint8_of x02)].
Proof.
  split; [split; reflexivity|].
  split.
  - destruct (control_frame false createSession control_sigint [x02] env0
                eq_refl eq_refl) as (Hnone & _).
    destruct (Hnone eq_refl) as [Hpass _]. exact Hpass.
  - destruct (control_frame false session0 control_sigint [x02] env0
                eq_refl eq_refl) as (_ & _ & Hsig & _).
    destruct (Hsig pty0 x02 [] eq_refl eq_refl) as (_ & _ & _ & Hev).
    exact (Hev eq_refl eq_refl).
Defined.

(** C8 as stated is false: a CONTROL frame with an empty payload that
    arrives before any PTY exists is not rejected as invalid control data;
    the test for the PTY comes first and the peer is told that no PTY is
    available. *)
Lemma empty_control_without_pty_is_NoPty :
  UnmarshalMessage [x03; x00; x00] = Ok (mkMessage MsgTypeControl [])
  /\ reader_step false (mkTick false (Received [x03; x00; x00]) env0) createSession
     = (Running, createSession,
        [LogPrintf "Message handling error: no PTY available";
         ConnWrite BinaryMessage (error_frame "Error: no PTY available") None])
  /\ error_frame "Error: no PTY available" <> error_frame "Error: invalid control data".
Proof. vm_compute. repeat split. discriminate. Qed.

Lemma peer_hangs_up_finishes (windows : bool) :
  fst (fst (handleConnection windows peer_hangs_up createSession)) <> Running.
Proof. destruct windows; vm_compute; discriminate. Qed.

(** C1 as stated is false: a session is registered, its peer hangs up, its
    goroutine ends and [cleanup] runs; the session is [Closed] and an
    enumeration of the handler's session set still yields it. *)
Lemma registry_keeps_closed_session :
  exists srv1 session,
    ServeHTTP None NewHandler = (srv1, Some session)
    /\ let srv2 := run_handleConnection false session peer_hangs_up srv1 in
       (exists s', heap srv2 !! session = Some s' /\ state_of s' = Closed)
       /\ session ∈ Range srv2.
Proof.
  eexists _, _. split; [reflexivity|]. intros srv2.
  pose proof (ServeHTTP_registers NewHandler _ _ eq_refl) as [Hh Hin].
  destruct (finished_session_registered false _ _ peer_hangs_up createSession
              Hh eq_refl (peer_hangs_up_finishes false)) as [(s' & Hs & Hst & _) Hreg].
  fold srv2 in Hs, Hreg. split.
  - exists s'. split; assumption.
  - unfold Range. rewrite elem_of_elements, Hreg. exact Hin.
Qed.

Lemma closed_session_stays_registered_witness :
  exists srv1 session,
    ServeHTTP None NewHandler = (srv1, Some session)
    /\ fst (fst (handleConnection true peer_sends_close createSession)) <> Running
    /\ session ∈ Range (run_handleConnection true session peer_sends_close srv1).
Proof.
  eexists _, _. split; [reflexivity|].
  assert (Hfin : fst (fst (handleConnection true peer_sends_close createSession))
                 <> Running) by (vm_compute; discriminate).
  split; [exact Hfin|].
  destruct (closed_session_stays_registered true NewHandler _ _ peer_sends_close
              eq_refl Hfin) as (_ & _ & Hin).
  exact Hin.
Defined.

End Runs.

(** ** Byte order in each direction *)

Module Ordering.
Import Go Sys Protocol Terminal GoFacts Codec SessionFacts.

Lemma pty_input_app (tr1 tr2 : list event) :
  pty_input (tr1 ++ tr2) = pty_input tr1 ++ pty_input tr2.
Proof.
  induction tr1 as [|ev tr1 IH]; [reflexivity|].
  destruct ev; cbn [app pty_input]; rewrite IH; try reflexivity.
  apply app_assoc.
Qed.

Lemma peer_frames_app (tr1 tr2 : list event) :
  peer_frames (tr1 ++ tr2) = peer_frames tr1 ++ peer_frames tr2.
Proof.
  induction tr1 as [|ev tr1 IH]; [reflexivity|].
  destruct ev as [| | | | | | | |k d r| | | | |]; cbn [app peer_frames];
    try exact IH.
  destruct k, r; cbn [app]; rewrite IH; reflexivity.
Qed.

Lemma peer_data_app (tr1 tr2 : list event) :
  peer_data (tr1 ++ tr2) = peer_data tr1 ++ peer_data tr2.
Proof.
  unfold peer_data. rewrite peer_frames_app, map_app, concat_app. reflexivity.
Qed.

Section Platform.

Variable windows : bool.

(** One DATA frame, received by an open session whose PTY is absent or live,
    in an environment where the PTY works: the payload, and nothing else, is
    written to the PTY, which is live afterwards. *)
Lemma data_pass (s : Session) (w d : list byte) (e : env) :
  ctx_done s = false -> (s_pty s = None \/ exists p, live s p) ->
  UnmarshalMessage w = Ok (mkMessage MsgTypeData d) -> pty_works e ->
  exists s' ev,
    reader_step windows (mkTick false (Received w) e) s = (Running, s', ev)
    /\ pty_input ev = d
    /\ ctx_done s' = false /\ (exists p, live s' p).
Proof.
  intros Hd Hpty Hw [(fd & pid & Hstart) Hwrite].
  rewrite reader_step_received by exact Hd.
  rewrite (handleMessage_data _ _ _ _ _ Hw). unfold handleData.
  destruct Hpty as [Hnone | (p & Hp & Hc)].
  - unfold ensure_pty, Pty.NewPTY. rewrite Hnone, Hstart.
    unfold Pty.Write. cbn [Pty.closed]. rewrite Hwrite. cbn [of_error].
    eexists _, _. split; [reflexivity|]. split.
    + cbn [app pty_input]. apply app_nil_r.
    + split; [exact Hd|]. eexists. split; reflexivity.
  - rewrite (ensure_pty_present _ _ _ _ Hp). unfold Pty.Write.
    rewrite Hc, Hwrite. cbn [of_error].
    eexists _, _. split; [reflexivity|]. split.
    + cbn [app pty_input]. apply app_nil_r.
    + split; [exact Hd|]. exists p. split; assumption.
Qed.

(** The reader direction: whatever frames decode to DATA frames [d1..dn],
    the PTY receives the concatenation of the payloads, in order. *)
Lemma reader_loop_data_order (wes : list (list byte * env)) (ds : list (list byte)) :
  Forall2 (fun we d => UnmarshalMessage we.1 = Ok (mkMessage MsgTypeData d)
                       /\ pty_works we.2) wes ds ->
  forall s, ctx_done s = false -> (s_pty s = None \/ exists p, live s p) ->
  exists s' ev,
    reader_loop windows (map (fun we => mkTick false (Received we.1) we.2) wes) s
    = (Running, s', ev)
    /\ pty_input ev = concat ds.
Proof.
  induction 1 as [|we d wes ds [Hw He] _ IH]; intros s Hd Hpty.
  - eexists _, _. split; reflexivity.
  - destruct (data_pass s we.1 d we.2 Hd Hpty Hw He)
      as (s1 & ev1 & Hstep & Hin & Hd1 & Hp1).
    destruct (IH s1 Hd1 (or_intror Hp1)) as (s2 & ev2 & Hloop & Hin2).
    exists s2, (ev1 ++ ev2). cbn [map reader_loop]. rewrite Hstep, Hloop.
    split; [reflexivity|].
    rewrite pty_input_app, Hin, Hin2. reflexivity.
Qed.

End Platform.

(** One read of the pump that returns the bytes [d], at most a buffer full:
    they reach the peer as the payload of one DATA frame (no frame when the
    read is empty). *)
Lemma pump_pass (s : Session) (p : Pty.PTY) (d : list byte) :
  ctx_done s = false -> live s p -> len d <= buffer_size ->
  exists ev,
    pump_step (mkPumpTick false false (inl d) None) s = (Running, s, ev)
    /\ peer_data ev = d.
Proof.
  intros Hd [Hp Hc] Hlen. unfold buffer_size in Hlen.
  unfold pump_step. cbn [pump_async_cancel pump_async_close pump_read
    pump_conn_write observe_cancel].
  unfold observe_close. rewrite Hp, Hd, Hp. unfold Pty.Read. rewrite Hc.
  destruct (len d >? 0) eqn:Hpos.
  - unfold sendData, sendMessage.
    destruct (roundtrip (mkMessage MsgTypeData d)) as (w & Hm & _ & Hu);
      [cbn [Data]; lia|].
    rewrite Hm. eexists. split; [reflexivity|].
    unfold peer_data. cbn [app peer_frames map concat]. unfold data_payload.
    rewrite Hu. cbn. apply app_nil_r.
  - eexists. split; [reflexivity|].
    assert (len d = 0) by (pose proof (len_nonneg d); lia).
    destruct d; [reflexivity | unfold len in *; cbn [length] in *; lia].
Qed.

(** The pump direction: for reads [p1..pm] of the PTY, the payloads of the
    DATA frames the peer receives concatenate to the reads, in order. *)
Lemma pump_loop_order (ps : list (list byte)) (s : Session) (p : Pty.PTY) :
  ctx_done s = false -> live s p ->
  Forall (fun d => len d <= buffer_size) ps ->
  exists ev,
    readFromPTY (map (fun d => mkPumpTick false false (inl d) None) ps) s
    = (Running, s, ev)
    /\ peer_data ev = concat ps.
Proof.
  intros Hd Hlive Hall. unfold readFromPTY.
  destruct Hlive as [Hp Hc]. rewrite Hp. cbn [is_nil].
  induction Hall as [|d ps Hlen _ IH].
  - eexists. split; reflexivity.
  - destruct (pump_pass s p d Hd (conj Hp Hc) Hlen) as (ev1 & Hstep & Hdata).
    destruct IH as (ev2 & Hloop & Hdata2).
    exists (ev1 ++ ev2). cbn [map pump_loop]. rewrite Hstep, Hloop.
    split; [reflexivity|].
    rewrite peer_data_app, Hdata, Hdata2. reflexivity.
Qed.

(** C9 (for every sequence of DATA frames received from the peer the PTY
    receives the concatenation of their payloads) does not hold of the code:
    a DATA frame with a payload of 65533 bytes, a frame the codec encodes,
    makes [UnmarshalMessage] panic in the reader loop; the goroutine unwinds
    through [cleanup] and no byte of the payload reaches a PTY. *)
Theorem oversize_data_frame_crashes (windows : bool) (e : env) :
  exists wire ev,
    Marshal (mkMessage MsgTypeData (repeat x61 (Z.to_nat 65533))) = Ok wire
    /\ handleConnection windows [mkTick false (Received wire) e] createSession
       = (Panicked (SliceBoundsOutOfRange 3 0),
          mkSession None true true true, ev)
    /\ pty_input ev = []
    /\ pty_input ev <> repeat x61 (Z.to_nat 65533).
Proof.
  destruct (roundtrip_wraps (mkMessage MsgTypeData (repeat x61 (Z.to_nat 65533))))
    as (wire & Hm & _ & Hu).
  { cbn [Data]. rewrite len_repeat; lia. }
  cbn [Data] in Hu. rewrite len_repeat in Hu by lia.
  change (65533 - 65533) with 0 in Hu.
  exists wire. eexists. split; [exact Hm|].
  unfold handleConnection. cbn [reader_loop].
  rewrite reader_step_received by reflexivity.
  unfold handleMessage. rewrite Hu. cbn [cleanup createSession closeOnce_done s_pty].
  split; [reflexivity|]. cbn [app pty_input]. split; [reflexivity|].
  intros Heq. apply (f_equal (@length byte)) in Heq.
  rewrite repeat_length in Heq. cbn [length] in Heq. lia.
Qed.

End Ordering.

(** ** Scenarios of the specification, run on the code *)

Module Scenarios.
Import Go Sys Protocol Terminal.

(** Echo: the first DATA frame starts the shell at 80 x 24, starts the pump
    and writes the payload. *)
Example echo_first_frame :
  reader_step false (mkTick false (Received data_a) env0) createSession
  = (Running, mkSession (Some pty0) false false false,
     [StartWithSize "/bin/sh" 80 24; GoReadFromPTY; FileWrite [x61]]).
Proof. vm_compute. reflexivity. Qed.

(** Resize: [02 04 00 84 00 32 00] resizes the PTY to 132 x 50. *)
Example resize_132_50 :
  reader_step false
    (mkTick false (Received [x02; x04; x00; x84; x00; x32; x00]) env0) session0
  = (Running, session0, [Setsize 132 50]).
Proof. vm_compute. reflexivity. Qed.

(** Malformed resize: a three-byte payload is answered by one ERROR frame
    and the session goes on. *)
Example malformed_resize :
  exists frame,
    Marshal (mkMessage MsgTypeError
               (list_byte_of_string
                  "Error: failed to unmarshal resize data: invalid resize data"))
    = Ok frame
    /\ reader_step false
         (mkTick false (Received [x02; x03; x00; x01; x00; x02]) env0) session0
       = (Running, session0,
          [LogPrintf
             "Message handling error: failed to unmarshal resize data: invalid resize data";
           ConnWrite BinaryMessage frame None]).
Proof. eexists. split; vm_compute; reflexivity. Qed.

(** Unknown type: [7f 00 00] is answered by one ERROR frame. *)
Example unknown_type :
  exists frame,
    Marshal (mkMessage MsgTypeError
               (list_byte_of_string "Error: unknown message type: 127"))
    = Ok frame
    /\ reader_step false (mkTick false (Received [x7f; x00; x00]) env0) session0
       = (Running, session0,
          [LogPrintf "Message handling error: unknown message type: 127";
           ConnWrite BinaryMessage frame None]).
Proof. eexists. split; vm_compute; reflexivity. Qed.

(** Peer-initiated close: [06 00 00] cancels the session; the loop returns
    on its next pass and [cleanup] closes the PTY and the connection. *)
Example peer_close :
  handleConnection false peer_sends_close session0
  = (Returned,
     mkSession (Some (Pty.mkPTY (Some 7%nat) (Some 3%nat) true)) true true true,
     [GoHeartbeat; TickerStop; CmdCancel; FileClose; ProcessSignal SIGTERM;
      ConnClose]).
Proof. vm_compute. reflexivity. Qed.

(** Two DATA frames, [a] then [b]: the PTY receives [ab]. *)
Example two_data_frames :
  exists wes,
    Forall2 (fun we d => UnmarshalMessage we.1 = Ok (mkMessage MsgTypeData d)
                         /\ pty_works we.2)
            wes [[x61]; [x62]]
    /\ exists s' ev,
         reader_loop false
           (map (fun we => mkTick false (Received we.1) we.2) wes) createSession
         = (Running, s', ev)
         /\ pty_input ev = [x61; x62].
Proof.
  exists [(data_a, env0); ([x01; x01; x00; x62], env0)]. split.
  - repeat constructor; try reflexivity; eexists _, _; reflexivity.
  - apply (Ordering.reader_loop_data_order false _ [[x61]; [x62]]).
    + repeat constructor; try reflexivity; eexists _, _; reflexivity.
    + reflexivity.
    + left. reflexivity.
Qed.

(** Two reads of the PTY, [a] then [b]: the peer receives [ab] in DATA
    frames. *)
Example two_pty_reads :
  exists ev,
    readFromPTY (map (fun d => mkPumpTick false false (inl d) None) [[x61]; [x62]])
                session0
    = (Running, session0, ev)
    /\ peer_data ev = [x61; x62].
Proof.
  apply (Ordering.pump_loop_order [[x61]; [x62]] session0 pty0).
  - reflexivity.
  - split; reflexivity.
  - repeat constructor; vm_compute; discriminate.
Qed.

End Scenarios.

(** * Further properties of the code *)

(** ** The frame codec and the message encoder *)

Module CodecMore.
Import Go Protocol GoFacts Codec.

(** The resize payload is four bytes and decodes back to the dimensions it
    was built from, for all dimensions that fit a [uint16], zero included. *)
Theorem resize_roundtrip (cols rows : Z) :
  0 <= cols < 65536 -> 0 <= rows < 65536 ->
  len (ResizeData_Marshal (mkResizeData cols rows)) = 4
  /\ UnmarshalResizeData (ResizeData_Marshal (mkResizeData cols rows))
     = Ok (mkResizeData cols rows).
Proof.
  intros Hc Hr. split; [reflexivity|].
  unfold ResizeData_Marshal, PutUint16. cbn [Cols Rows app UnmarshalResizeData].
  rewrite !Uint16_PutUint16 by assumption. reflexivity.
Qed.

Lemma resize_roundtrip_witness :
  UnmarshalResizeData (ResizeData_Marshal (mkResizeData 132 0))
  = Ok (mkResizeData 132 0).
Proof.
  apply (resize_roundtrip 132 0); lia.
Defined.

Lemma length_field_range (data : list byte) : 0 <= length_field data < 65536.
Proof.
  destruct data as [|t [|b1 [|b2 rest]]]; cbn [length_field]; try lia.
  apply Uint16_range.
Qed.

Lemma frame_shape (data : list byte) :
  3 <= len data ->
  exists t b1 b2 rest,
    data = t :: b1 :: b2 :: rest /\ length_field data = Uint16 b1 b2
    /\ len data = 3 + len rest.
Proof.
  destruct data as [|t [|b1 [|b2 rest]]]; unfold len; cbn [length]; try lia.
  intros _. exists t, b1, b2, rest. repeat split. lia.
Qed.

Ltac settle_outcome :=
  repeat match goal with
         | |- _ /\ _ => split
         | |- _ <-> _ => split
         end;
  try (let Hd := fresh in intros [? Hd]; discriminate Hd);
  try (intros; eexists; reflexivity);
  try (intros; intuition lia).

Ltac by_outcome data :=
  let HL := fresh "HL" in
  pose proof (length_field_range data) as HL;
  let Hshort := fresh "Hshort" in
  let Hlong := fresh "Hlong" in
  destruct (Z.lt_ge_cases (len data) 3) as [Hshort|Hlong];
  [ rewrite UnmarshalMessage_short by exact Hshort; settle_outcome
  | let t := fresh "t" in
    let b1 := fresh "b1" in
    let b2 := fresh "b2" in
    let rest := fresh "rest" in
    let HLf := fresh "HLf" in
    let Hlen := fresh "Hlen" in
    destruct (frame_shape data Hlong) as (t & b1 & b2 & rest & -> & HLf & Hlen);
    rewrite HLf in *; rewrite Hlen in *; clear HLf Hlen;
    pose proof (len_nonneg rest);
    destruct (Z.le_gt_cases 65533 (Uint16 b1 b2));
    [ rewrite UnmarshalMessage_wraps by assumption; settle_outcome
    | destruct (Z.lt_ge_cases (len rest) (Uint16 b1 b2));
      [ rewrite UnmarshalMessage_truncated by lia; settle_outcome
      | rewrite UnmarshalMessage_prefix by lia; settle_outcome ] ] ].

(** What each outcome of [UnmarshalMessage] says about the input. *)
Lemma UnmarshalMessage_classify (data : list byte) :
  ((exists m, UnmarshalMessage data = Ok m)
   -> 3 <= len data /\ length_field data <= 65532
      /\ 3 + length_field data <= len data)
  /\ ((exists q, UnmarshalMessage data = Panic q)
      -> 3 <= len data /\ 65533 <= length_field data)
  /\ ((exists e, UnmarshalMessage data = Err e)
      -> len data < 3
         \/ (length_field data <= 65532 /\ len data < 3 + length_field data)).
Proof. by_outcome data. Qed.

(** The three outcomes of [UnmarshalMessage], each exactly characterised by
    the length of the input and its length field [L]: a frame when the input
    has its three header bytes, [L <= 65532] and at least [3 + L] bytes; a
    panic when it has its header and [L >= 65533]; an error otherwise. *)
Theorem UnmarshalMessage_outcome (data : list byte) :
  ((exists m, UnmarshalMessage data = Ok m)
   <-> 3 <= len data /\ length_field data <= 65532
       /\ 3 + length_field data <= len data)
  /\ ((exists q, UnmarshalMessage data = Panic q)
      <-> 3 <= len data /\ 65533 <= length_field data)
  /\ ((exists e, UnmarshalMessage data = Err e)
      <-> len data < 3
          \/ (length_field data <= 65532 /\ len data < 3 + length_field data)).
Proof.
  pose proof (length_field_range data) as HL.
  destruct (Z.lt_ge_cases (len data) 3) as [Hshort|Hlong].
  - rewrite UnmarshalMessage_short by exact Hshort. settle_outcome.
  - destruct (frame_shape data Hlong) as (t & b1 & b2 & rest & -> & HLf & Hlen).
    rewrite HLf in *. rewrite Hlen in *. clear HLf Hlen.
    pose proof (len_nonneg rest) as Hn.
    destruct (Z.le_gt_cases 65533 (Uint16 b1 b2)) as [Hwrap|Hsmall].
    + rewrite UnmarshalMessage_wraps by exact Hwrap. settle_outcome.
    + destruct (Z.lt_ge_cases (len rest) (Uint16 b1 b2)) as [Hlt|Hge].
      * rewrite UnmarshalMessage_truncated by lia. settle_outcome.
      * rewrite UnmarshalMessage_prefix by lia. settle_outcome.
Qed.

(** Whatever [UnmarshalMessage] accepts can be encoded again, and encoding
    the decoded frame gives back the [3 + L] bytes of the input that the
    decoder consumed; the payload has exactly [L] bytes, at most 65532. *)
Theorem decode_then_encode (data : list byte) (m : Message) :
  UnmarshalMessage data = Ok m ->
  len (Data m) = length_field data
  /\ len (Data m) <= 65532
  /\ Marshal m = Ok (take (Z.to_nat (3 + length_field data)) data).
Proof.
  intros Hu.
  destruct (proj1 (UnmarshalMessage_classify data) (ex_intro _ m Hu))
    as (Hlong & HL & Hcover).
  destruct (frame_shape data Hlong) as (t & b1 & b2 & rest & -> & HLf & Hlen).
  rewrite HLf in *. rewrite Hlen in Hcover.
  pose proof (Uint16_range b1 b2) as Hr.
  rewrite UnmarshalMessage_prefix in Hu by lia. injection Hu as <-.
  cbn [Data Type_].
  assert (Hlp : len (take (Z.to_nat (Uint16 b1 b2)) rest) = Uint16 b1 b2).
  { unfold len in *. rewrite length_take. lia. }
  split; [exact Hlp|]. split; [lia|].
  rewrite Marshal_ok by (cbn [Data]; lia). cbn [Data Type_]. rewrite Hlp.
  f_equal. replace (Z.to_nat (3 + Uint16 b1 b2)) with (3 + Z.to_nat (Uint16 b1 b2))%nat by lia.
  cbn [take Nat.add PutUint16 app].
  assert (Hb : uint8_of b1 + 256 * uint8_of b2 = Uint16 b1 b2) by (symmetry; apply Uint16_spec).
  pose proof (uint8_of_range b1) as H1. pose proof (uint8_of_range b2) as H2.
  assert (E1 : to_uint8 (Uint16 b1 b2) = b1).
  { unfold to_uint8.
    replace (Uint16 b1 b2 mod 256) with (uint8_of b1)
      by (apply (Z.mod_unique_pos _ _ (uint8_of b2)); lia).
    unfold uint8_of. rewrite N2Z.id, Byte.of_to_N. reflexivity. }
  assert (E2 : to_uint8 (Z.shiftr (Uint16 b1 b2) 8) = b2).
  { unfold to_uint8. rewrite Z.shiftr_div_pow2 by lia. change (2 ^ 8) with 256.
    replace (Uint16 b1 b2 / 256) with (uint8_of b2)
      by (apply (Z.div_unique_pos _ _ _ (uint8_of b1)); lia).
    rewrite Z.mod_small by lia. unfold uint8_of.
    rewrite N2Z.id, Byte.of_to_N. reflexivity. }
  rewrite E1, E2. reflexivity.
Qed.

Lemma decode_then_encode_witness :
  Marshal (mkMessage x01 [x61])
  = Ok (take (Z.to_nat (3 + length_field [x01; x01; x00; x61; xff]))
             [x01; x01; x00; x61; xff]).
Proof.
  apply (decode_then_encode [x01; x01; x00; x61; xff] (mkMessage x01 [x61])).
  reflexivity.
Defined.

(** Distinct frames never share an encoding: two messages that [Marshal]
    to the same bytes are the same message. *)
Theorem Marshal_injective (m1 m2 : Message) (w : list byte) :
  Marshal m1 = Ok w -> Marshal m2 = Ok w -> m1 = m2.
Proof.
  unfold Marshal.
  destruct (len (Data m1) >? 65535); [discriminate|].
  destruct (len (Data m2) >? 65535); [discriminate|].
  cbn [PutUint16 app]. intros [= <-] [= Ht _ _ Hd].
  destruct m1, m2. cbn [Type_ Data] in *. congruence.
Qed.

Lemma Marshal_injective_witness :
  mkMessage x01 [x61] = mkMessage x01 (take 1 [x61; x62]).
Proof.
  apply (Marshal_injective _ _ [x01; x01; x00; x61]); reflexivity.
Defined.

(** The message encoder: for every type and every payload of at most 65532
    bytes, [EncodeMessage] succeeds with [3 + |payload|] bytes and
    [DecodeMessage] gives back the type and the payload. *)
Theorem encoder_roundtrip (msgType : MessageType) (data : list byte) :
  len data <= 65532 ->
  exists w,
    Impl.EncodeMessage msgType data = Ok w
    /\ len w = 3 + len data
    /\ Impl.DecodeMessage w = Ok (mkMessage msgType data).
Proof.
  intros H. apply (roundtrip (mkMessage msgType data)). exact H.
Qed.

Lemma encoder_roundtrip_witness :
  exists w,
    Impl.EncodeMessage x7f [x61; x62] = Ok w
    /\ len w = 3 + len [x61; x62]
    /\ Impl.DecodeMessage w = Ok (mkMessage x7f [x61; x62]).
Proof.
  apply (encoder_roundtrip x7f [x61; x62]). vm_compute. discriminate.
Defined.

End CodecMore.

(** ** The default PTY session and the in-memory session store *)

Module ImplFacts.
Import Go Sys Impl.

(** After [Close], every operation of a [DefaultPTYSession] fails with the
    error [session closed] without reaching the master or the child, [Read]
    included, and a second [Close] does nothing. *)
Theorem default_session_after_close (windows : bool) (s : DefaultPTYSession)
    (r : list byte + error) (data : list byte) (w : option (nat * error))
    (cols rows sig : Z) (o : option error) :
  let s' := fst (Close windows s) in
  Read s' r = (([], Some session_closed), [])
  /\ Write s' data w = ((0, Some session_closed), [])
  /\ Resize s' cols rows o = (Some session_closed, [])
  /\ SendSignal windows s' sig o = (Some session_closed, [])
  /\ Close windows s' = (s', []).
Proof.
  intros s'.
  assert (Hc : closed s' = true).
  { unfold s', Close. destruct (closed s) eqn:E; [exact E | reflexivity]. }
  unfold Read, Write, Resize, SendSignal, Close. rewrite Hc. cbn [orb].
  repeat split.
Qed.

(** On handles that are not closed and have their child process the two PTY
    implementations behave alike: a [DefaultPTYSession] and a [Pty.PTY] over
    the same master and child answer every read, write, resize and signal
    identically, and their
    [Close] differ only in that [Pty.PTY] first cancels the command context,
    which a [DefaultPTYSession] does not own. *)
Theorem default_session_agrees_with_PTY (windows : bool) (p : Pty.PTY)
    (s : DefaultPTYSession) (r : list byte + error) (data : list byte)
    (w : option (nat * error)) (cols rows sig : Z) (o : option error) :
  Pty.cmd_Process p = cmd_Process s -> Pty.pty p = pty s ->
  Pty.closed p = false -> closed s = false ->
  is_nil (cmd_Process s) = false ->
  Pty.Read p r = Read s r
  /\ Pty.Write p data w = Write s data w
  /\ Pty.Resize p cols rows o = Resize s cols rows o
  /\ Pty.SendSignal windows p sig o = SendSignal windows s sig o
  /\ snd (Pty.Close windows p) = CmdCancel :: snd (Close windows s).
Proof.
  intros Hproc Hfile Hp Hs Hchild.
  unfold Pty.Read, Pty.Write, Pty.Resize, Pty.SendSignal, Pty.Close,
    Read, Write, Resize, SendSignal, Close.
  rewrite Hp, Hs, Hproc, Hfile, Hchild. cbn [orb]. repeat split.
Qed.

Lemma default_session_agrees_with_PTY_witness :
  Pty.Write Terminal.pty0 [x61] None
  = Write (mkDefaultPTYSession (Some 7%nat) (Some 3%nat) false) [x61] None.
Proof.
  apply (default_session_agrees_with_PTY false Terminal.pty0
           (mkDefaultPTYSession (Some 7%nat) (Some 3%nat) false)
           (inl []) [x61] None 80 24 2 None
           eq_refl eq_refl eq_refl eq_refl eq_refl).
Defined.

(** Storing a session under an id makes [GetSession] return it for that id,
    replacing silently whatever was stored there, and changes the answer for
    no other id; [CreateSession] never reports an error. *)
Theorem get_after_create (st : gmap string nat) (id id' : string) (session : nat) :
  snd (CreateSession id session st) = None
  /\ GetSession id' (fst (CreateSession id session st))
     = if decide (id = id') then Some session else GetSession id' st.
Proof.
  split; [reflexivity|]. unfold GetSession, CreateSession. cbn [fst].
  apply lookup_insert.
Qed.

(** Deleting an id makes [GetSession] fail for it and changes no other id;
    deleting an id that is not stored leaves the store as it was, without an
    error; and deleting a freshly created id restores the store. *)
Theorem get_after_delete (st : gmap string nat) (id id' : string) (session : nat) :
  snd (DeleteSession id st) = None
  /\ GetSession id' (fst (DeleteSession id st))
     = (if decide (id = id') then None else GetSession id' st)
  /\ (GetSession id st = None ->
      fst (DeleteSession id st) = st
      /\ fst (DeleteSession id (fst (CreateSession id session st))) = st).
Proof.
  split; [reflexivity|]. unfold GetSession, DeleteSession, CreateSession.
  cbn [fst]. split; [apply lookup_delete|].
  intros Hnone. split.
  - apply delete_id. exact Hnone.
  - rewrite delete_insert_eq. apply delete_id. exact Hnone.
Qed.

Lemma get_after_delete_witness :
  fst (DeleteSession "a" (fst (CreateSession "a" 5%nat NewInMemorySessionStore)))
  = NewInMemorySessionStore.
Proof.
  destruct (get_after_delete NewInMemorySessionStore "a" "b" 5%nat)
    as (_ & _ & H).
  destruct (H eq_refl) as [_ Hrestore]. exact Hrestore.
Defined.

(** [ListSessions] returns one entry per stored id: a session is listed
    exactly when some id maps to it, and the list is as long as the store
    has ids (a session stored under two ids is listed twice). *)
Theorem ListSessions_spec (st : gmap string nat) (session : nat) :
  (session ∈ ListSessions st <-> exists id, GetSession id st = Some session)
  /\ length (ListSessions st) = size st.
Proof.
  unfold ListSessions, GetSession. split.
  - rewrite list_elem_of_fmap. split.
    + intros [[id p] [-> Hin]]. exists id. apply elem_of_map_to_list. exact Hin.
    + intros [id Hid]. exists (id, session). split; [reflexivity|].
      apply elem_of_map_to_list. exact Hid.
  - rewrite length_fmap. apply length_map_to_list.
Qed.

End ImplFacts.

(** ** Sessions: what each kind of frame does *)

Module SessionMore.
Import Go Sys Protocol Terminal SessionFacts Lifecycle Ordering.

Section Platform.

Variable windows : bool.




(** A frame that decodes to a CLOSE frame cancels the session and does
    nothing else: its payload is ignored, nothing is sent to the peer and
    nothing reaches the PTY; on its next pass the reader loop leaves the loop
    without handling what it would have received, the session being
    cancelled -- [Draining] until [cleanup] runs -- and otherwise unchanged. *)
Theorem close_frame_stops_reader_loop (s : Session) (w payload : list byte)
    (e : env) (t : tick) (ts : list tick) :
  ctx_done s = false ->
  UnmarshalMessage w = Ok (mkMessage MsgTypeClose payload) ->
  reader_step windows (mkTick false (Received w) e) s = (Running, cancel s, [])
  /\ reader_loop windows (mkTick false (Received w) e :: t :: ts) s
     = (Returned, cancel s, [])
  /\ s_pty (cancel s) = s_pty s
  /\ (closeOnce_done s = false -> state_of (cancel s) = Draining).
Proof.
  intros Hd Hu.
  assert (Hstep : reader_step windows (mkTick false (Received w) e) s
                  = (Running, cancel s, [])).
  { rewrite reader_step_received by exact Hd.
    unfold handleMessage. rewrite Hu. reflexivity. }
  assert (Hret : reader_step windows t (cancel s) = (Returned, cancel s, [])).
  { unfold reader_step. destruct (async_cancel t); reflexivity. }
  split; [exact Hstep|]. split; [|split; [reflexivity|]].
  - cbn [reader_loop]. rewrite Hstep, Hret. reflexivity.
  - intros Hc. unfold state_of. cbn [cancel closeOnce_done ctx_done].
    rewrite Hc. reflexivity.
Qed.

(** When the PTY cannot be started for a DATA or RESIZE frame, the frame is
    dropped: [NewPTY] cancels its command context, no PTY is kept, no pump is
    started and no byte is written; the failure is logged and, its text
    having at most 65535 bytes, written to the peer in an ERROR frame; the
    loop goes on, so that the next such frame tries again. *)
Theorem pty_start_failure_reported (s : Session) (w payload : list byte)
    (ty : MessageType) (e : env) (err : error) :
  ctx_done s = false -> s_pty s = None ->
  ty = MsgTypeData \/ ty = MsgTypeResize ->
  UnmarshalMessage w = Ok (mkMessage ty payload) ->
  start_result e = inr err ->
  len (list_byte_of_string ("Error: failed to create PTY: " ++ err)) <= 65535 ->
  let pass := reader_step windows (mkTick false (Received w) e) s in
  pass
  = match conn_write_result e with
    | None =>
        (Running, s,
         [StartWithSize (Pty.shell_command windows (env_SHELL e)) 80 24; CmdCancel;
          LogPrintf ("Message handling error: failed to create PTY: " ++ err)%string;
          ConnWrite BinaryMessage
            (error_frame ("Error: failed to create PTY: " ++ err)) None])
    | Some werr =>
        (Running, cancel s,
         [StartWithSize (Pty.shell_command windows (env_SHELL e)) 80 24; CmdCancel;
          LogPrintf ("Message handling error: failed to create PTY: " ++ err)%string;
          ConnWrite BinaryMessage
            (error_frame ("Error: failed to create PTY: " ++ err)) (Some werr);
          LogPrintf ("Failed to write message: " ++ werr)%string])
    end
  /\ s_pty (snd (fst pass)) = None
  /\ pty_input (snd pass) = [] /\ pumps_started (snd pass) = 0%nat.
Proof.
  intros Hd Hp Hty Hu Hstart Hfit pass.
  assert (Hh : handleMessage windows s w e
               = (Err ("failed to create PTY: " ++ err)%string, s,
                  [StartWithSize (Pty.shell_command windows (env_SHELL e)) 80 24;
                   CmdCancel])).
  { unfold handleMessage. rewrite Hu.
    destruct Hty as [-> | ->]; cbn [Type_];
      [change (Byte.eqb MsgTypeData MsgTypeData) with true
      |change (Byte.eqb MsgTypeResize MsgTypeData) with false;
       change (Byte.eqb MsgTypeResize MsgTypeResize) with true];
      cbv iota; unfold handleData, handleResize, ensure_pty, Pty.NewPTY;
      rewrite Hp, Hstart; reflexivity. }
  assert (Hpass : pass = _) by exact (reader_step_reports windows _ _ _ _ _ _ Hd Hh Hfit).
  rewrite Hpass. destruct (conn_write_result e); repeat split; exact Hp.
Qed.

(** The PTY is created before a RESIZE payload is looked at: a RESIZE frame
    with fewer than four payload bytes received first still starts the shell
    at 80 x 24 and its pump and keeps that PTY; only then is the frame
    rejected, by one ERROR frame naming the resize data; no window size is
    applied and nothing is written to the PTY. *)
Theorem malformed_resize_still_starts_pty (s : Session) (w payload : list byte)
    (e : env) (fd pid : nat) :
  ctx_done s = false -> s_pty s = None ->
  UnmarshalMessage w = Ok (mkMessage MsgTypeResize payload) ->
  len payload < 4 -> start_result e = inl (fd, pid) ->
  let s1 := set_pty s (Pty.mkPTY (Some pid) (Some fd) false) in
  let text := "failed to unmarshal resize data: invalid resize data"%string in
  reader_step windows (mkTick false (Received w) e) s
  = match conn_write_result e with
    | None =>
        (Running, s1,
         [StartWithSize (Pty.shell_command windows (env_SHELL e)) 80 24;
          GoReadFromPTY;
          LogPrintf ("Message handling error: " ++ text)%string;
          ConnWrite BinaryMessage (error_frame ("Error: " ++ text)) None])
    | Some werr =>
        (Running, cancel s1,
         [StartWithSize (Pty.shell_command windows (env_SHELL e)) 80 24;
          GoReadFromPTY;
          LogPrintf ("Message handling error: " ++ text)%string;
          ConnWrite BinaryMessage (error_frame ("Error: " ++ text)) (Some werr);
          LogPrintf ("Failed to write message: " ++ werr)%string])
    end.
Proof.
  intros Hd Hp Hu Hlen Hstart s1 text.
  assert (Hh : handleMessage windows s w e
               = (Err text, s1,
                  [StartWithSize (Pty.shell_command windows (env_SHELL e)) 80 24;
                   GoReadFromPTY])).
  { rewrite (handleMessage_resize _ _ _ _ _ Hu).
    unfold handleResize, ensure_pty, Pty.NewPTY. rewrite Hp, Hstart. cbn [app].
    assert (Hbad : UnmarshalResizeData payload = Err "invalid resize data"%string).
    { destruct payload as [|c0 [|c1 [|r0 [|r1 rest]]]]; try reflexivity.
      unfold len in Hlen. cbn [length] in Hlen. lia. }
    rewrite Hbad. reflexivity. }
  rewrite (reader_step_reports windows _ _ _ _ _ _ Hd Hh ltac:(vm_compute; discriminate)).
  destruct (conn_write_result e); reflexivity.
Qed.

(** *** What the reader loop never does *)

Lemma sendMessage_frames (s : Session) (m : Message) (cw : option error)
    (x : list byte) :
  x ∈ peer_frames (snd (sendMessage s m cw)) -> Marshal m = Ok x.
Proof.
  unfold sendMessage. destruct (Marshal m) as [data|err|q], cw;
    cbn [snd peer_frames]; intros Hin; try (by apply elem_of_nil in Hin).
  apply list_elem_of_singleton in Hin. congruence.
Qed.

Lemma sendMessage_pty_input (s : Session) (m : Message) (cw : option error) :
  pty_input (snd (sendMessage s m cw)) = []
  /\ pumps_started (snd (sendMessage s m cw)) = 0%nat.
Proof. unfold sendMessage. destruct (Marshal m), cw; split; reflexivity. Qed.

Lemma handleMessage_no_frames (s : Session) (data : list byte) (e : env) :
  peer_frames (snd (handleMessage windows s data e)) = [].
Proof.
  unfold handleMessage, handleData, handleResize, handleControl, ensure_pty,
    Pty.NewPTY, Pty.Write, Pty.Resize, Pty.SendSignal.
  repeat case_match; simplify_eq; reflexivity.
Qed.

Lemma pumps_started_app (tr1 tr2 : list event) :
  pumps_started (tr1 ++ tr2) = (pumps_started tr1 + pumps_started tr2)%nat.
Proof.
  induction tr1 as [|ev tr1 IH]; [reflexivity|].
  destruct ev; cbn [app pumps_started]; rewrite IH; reflexivity.
Qed.

(** The handlers keep the PTY handle they find, start a pump exactly when
    they create the handle, and write to the PTY only (a prefix of) the
    payload of a DATA frame. *)
Lemma handleMessage_invariants (s : Session) (data : list byte) (e : env) :
  let '(_, s', ev) := handleMessage windows s data e in
  (forall p, s_pty s = Some p -> s_pty s' = Some p /\ pumps_started ev = 0%nat)
  /\ (s_pty s = None ->
      (s_pty s' = None /\ pumps_started ev = 0%nat)
      \/ (is_nil (s_pty s') = false /\ pumps_started ev = 1%nat))
  /\ (pty_input ev = []
      \/ exists d n, UnmarshalMessage data = Ok (mkMessage MsgTypeData d)
                     /\ pty_input ev = take n d).
Proof.
  unfold handleMessage.
  destruct (UnmarshalMessage data) as [[ty d]|err|q] eqn:Hu; cbn [Type_ Data];
    [|repeat split; auto; intros ? H; rewrite H in *; auto..].
  destruct (Byte.eqb ty MsgTypeData) eqn:Hty.
  { apply byte_dec_bl in Hty. subst ty.
    unfold handleData, ensure_pty, Pty.NewPTY, Pty.Write.
    repeat case_match; simplify_eq; cbn [s_pty set_pty is_nil app pty_input
      pumps_started]; rewrite ?app_nil_r;
      (split; [intros ? ?; simplify_eq; auto | split; [intros ?; simplify_eq; auto|]]);
      first [ left; reflexivity
            | right; eexists d, _; split; reflexivity
            | right; exists d, (length d); rewrite firstn_all; split; reflexivity ]. }
  unfold handleResize, handleControl, ensure_pty, Pty.NewPTY, Pty.Resize,
    Pty.SendSignal, cancel.
  repeat case_match; simplify_eq; cbn [s_pty set_pty is_nil app pty_input
    pumps_started];
    (split; [intros ? ?; simplify_eq; auto | split; [intros ?; simplify_eq; auto|]]);
    left; reflexivity.
Qed.

Lemma reader_step_invariants (t : tick) (s : Session) :
  let '(_, s', ev) := reader_step windows t s in
  (forall p, s_pty s = Some p -> s_pty s' = Some p /\ pumps_started ev = 0%nat)
  /\ (s_pty s = None ->
      (s_pty s' = None /\ pumps_started ev = 0%nat)
      \/ (is_nil (s_pty s') = false /\ pumps_started ev = 1%nat))
  /\ (pty_input ev = [] \/ from_data_frame [t] (pty_input ev))
  /\ (forall x, x ∈ peer_frames ev -> is_error_frame x).
Proof.
  unfold reader_step.
  assert (Hobs : s_pty (observe_cancel (async_cancel t) s) = s_pty s)
    by (unfold observe_cancel; destruct (async_cancel t); reflexivity).
  set (s0 := observe_cancel (async_cancel t) s) in *.
  rewrite <- Hobs. clearbody s0. clear Hobs s.
  assert (Hquiet : forall tr : list event,
             pumps_started tr = 0%nat -> pty_input tr = [] -> peer_frames tr = [] ->
             (forall p, s_pty s0 = Some p -> s_pty s0 = Some p /\ pumps_started tr = 0%nat)
             /\ (s_pty s0 = None ->
                 (s_pty s0 = None /\ pumps_started tr = 0%nat)
                 \/ (is_nil (s_pty s0) = false /\ pumps_started tr = 1%nat))
             /\ (pty_input tr = [] \/ from_data_frame [t] (pty_input tr))
             /\ (forall x, x ∈ peer_frames tr -> is_error_frame x)).
  { intros tr H1 H2 H3. rewrite H3. repeat split; auto.
    intros x Hx. by apply elem_of_nil in Hx. }
  destruct (ctx_done s0); [apply Hquiet; reflexivity|].
  destruct (tick_recv t) as [w|err unexpected] eqn:Hrecv;
    [|destruct unexpected; apply Hquiet; reflexivity].
  pose proof (handleMessage_invariants s0 w (tick_env t)) as Hinv.
  pose proof (handleMessage_no_frames s0 w (tick_env t)) as Hnf.
  destruct (handleMessage windows s0 w (tick_env t)) as [[r s1] ev].
  cbn [snd] in Hnf. destruct Hinv as (Hsome & Hnone & Hin).
  assert (Hfrom : pty_input ev = [] \/ from_data_frame [t] (pty_input ev)).
  { destruct Hin as [Hin | (d & n & Hu & Hin)]; [left; exact Hin|].
    right. exists t, w, d, n. repeat split; auto. apply list_elem_of_singleton.
    reflexivity. }
  destruct r as [u|err|q].
  - split; [exact Hsome|]. split; [exact Hnone|]. split; [exact Hfrom|].
    rewrite Hnf. intros x Hx. by apply elem_of_nil in Hx.
  - pose proof (sendMessage_pty s1
                  (mkMessage MsgTypeError (list_byte_of_string ("Error: " ++ err)))
                  (conn_write_result (tick_env t))) as Hpty.
    pose proof (sendMessage_pty_input s1
                  (mkMessage MsgTypeError (list_byte_of_string ("Error: " ++ err)))
                  (conn_write_result (tick_env t))) as [Hpi Hps].
    pose proof (sendMessage_frames s1
                  (mkMessage MsgTypeError (list_byte_of_string ("Error: " ++ err)))
                  (conn_write_result (tick_env t))) as Hfr.
    unfold sendError.
    destruct (sendMessage s1 _ (conn_write_result (tick_env t))) as [s2 ev2].
    cbn [fst snd] in *.
    rewrite !pumps_started_app, !pty_input_app, !peer_frames_app, Hps, Hpi, Hnf.
    cbn [pumps_started pty_input peer_frames app]. rewrite Hpty, Nat.add_0_r, app_nil_r.
    split; [exact Hsome|]. split; [exact Hnone|]. split; [exact Hfrom|].
    intros x Hx. exists ("Error: " ++ err)%string. apply Hfr, Hx.
  - split; [exact Hsome|]. split; [exact Hnone|]. split; [exact Hfrom|].
    rewrite Hnf. intros x Hx. by apply elem_of_nil in Hx.
Qed.

Lemma from_data_frame_mono (ts1 ts2 : list tick) (chunk : list byte) :
  ts1 ⊆ ts2 -> from_data_frame ts1 chunk -> from_data_frame ts2 chunk.
Proof.
  intros Hsub (t & w & d & n & Hin & H). exists t, w, d, n. split; [|exact H].
  apply Hsub, Hin.
Qed.

Lemma reader_loop_invariants (ts : list tick) :
  forall s,
  let '(_, s', ev) := reader_loop windows ts s in
  (forall p, s_pty s = Some p -> s_pty s' = Some p /\ pumps_started ev = 0%nat)
  /\ (pumps_started ev <= 1)%nat
  /\ (exists chunks, pty_input ev = concat chunks
                     /\ Forall (from_data_frame ts) chunks)
  /\ (forall x, x ∈ peer_frames ev -> is_error_frame x).
Proof.
  induction ts as [|t ts IH]; intros s.
  - cbn [reader_loop]. repeat split; auto.
    + exists []. split; [reflexivity | constructor].
    + intros x Hx. by apply elem_of_nil in Hx.
  - cbn [reader_loop]. pose proof (reader_step_invariants t s) as Hstep.
    destruct (reader_step windows t s) as [[st s1] ev1].
    destruct Hstep as (Hsome & Hnone & Hin & Hfr).
    assert (Hchunk1 : exists chunks, pty_input ev1 = concat chunks
                        /\ Forall (from_data_frame (t :: ts)) chunks).
    { destruct Hin as [Hin | Hin].
      - exists []. split; [exact Hin | constructor].
      - exists [pty_input ev1]. split; [cbn; by rewrite app_nil_r|].
        constructor; [|constructor].
        eapply from_data_frame_mono; [|exact Hin].
        intros x Hx. apply list_elem_of_singleton in Hx. subst x.
        apply elem_of_cons. left. reflexivity. }
    assert (Hp1 : (pumps_started ev1 <= 1)%nat).
    { destruct (s_pty s) as [p|] eqn:Hp.
      - destruct (Hsome p eq_refl) as [_ ->]. lia.
      - destruct (Hnone eq_refl) as [[_ ->] | [_ ->]]; lia. }
    destruct st;
      [|split; [exact Hsome | split; [exact Hp1 | split; [exact Hchunk1 | exact Hfr]]]..].
    specialize (IH s1). destruct (reader_loop windows ts s1) as [[st2 s2] ev2].
    destruct IH as (Hsome2 & Hp2 & (chunks2 & Hc2 & Hall2) & Hfr2).
    rewrite pumps_started_app, pty_input_app, peer_frames_app.
    split; [|split; [|split]].
    + intros p Hp. destruct (Hsome p Hp) as [Hp' ->].
      destruct (Hsome2 p Hp') as [Hp'' ->]. auto.
    + destruct (s_pty s) as [p|] eqn:Hp.
      * destruct (Hsome p eq_refl) as [_ ->]. lia.
      * destruct (Hnone eq_refl) as [[_ ->] | [Hnn ->]]; [lia|].
        destruct (s_pty s1) as [p1|] eqn:Hp1'; [|discriminate Hnn].
        destruct (Hsome2 p1 eq_refl) as [_ ->]. lia.
    + destruct Hchunk1 as (chunks1 & Hc1 & Hall1).
      exists (chunks1 ++ chunks2). split; [rewrite concat_app; congruence|].
      apply Forall_app. split; [exact Hall1|].
      eapply Forall_impl; [exact Hall2|]. intros c Hc.
      eapply from_data_frame_mono; [|exact Hc].
      intros x Hx. apply elem_of_cons. right. exact Hx.
    + intros x Hx. apply elem_of_app in Hx. destruct Hx; auto.
Qed.

Lemma cleanup_quiet (s : Session) :
  pumps_started (snd (cleanup windows s)) = 0%nat
  /\ pty_input (snd (cleanup windows s)) = []
  /\ peer_frames (snd (cleanup windows s)) = [].
Proof.
  unfold cleanup, Pty.Close.
  repeat case_match; simplify_eq; cbn; repeat split; reflexivity.
Qed.

(** The events of [handleConnection], seen through the three projections. *)
Lemma handleConnection_events (ts : list tick) (s : Session) :
  let ev := snd (handleConnection windows ts s) in
  let ev0 := snd (reader_loop windows ts s) in
  pumps_started ev = pumps_started ev0
  /\ pty_input ev = pty_input ev0
  /\ peer_frames ev = peer_frames ev0.
Proof.
  unfold handleConnection.
  destruct (reader_loop windows ts s) as [[st s1] ev0]. cbn [snd].
  pose proof (cleanup_quiet s1) as (Hc1 & Hc2 & Hc3).
  destruct (cleanup windows s1) as [s2 ev2]. cbn [snd] in *.
  destruct st; cbn [snd pumps_started pty_input peer_frames];
    rewrite ?pumps_started_app, ?pty_input_app, ?peer_frames_app, ?Hc1, ?Hc2, ?Hc3;
    cbn [pumps_started pty_input peer_frames app];
    rewrite ?Nat.add_0_r, ?app_nil_r; auto.
Qed.

(** The reader loop never replaces or closes the PTY of the session: the
    handle it finds is the handle it leaves, whatever frames arrive and
    whatever the outside answers. *)
Theorem reader_loop_keeps_pty (ts : list tick) (s : Session) (p : Pty.PTY) :
  s_pty s = Some p ->
  s_pty (snd (fst (reader_loop windows ts s))) = Some p.
Proof.
  intros Hp. pose proof (reader_loop_invariants ts s) as Hinv.
  destruct (reader_loop windows ts s) as [[st s1] ev].
  destruct Hinv as (Hsome & _). exact (proj1 (Hsome p Hp)).
Qed.

(** A session starts at most one pump, and none when it already has a PTY:
    the PTY master has a single reader for the life of the session. *)
Theorem at_most_one_pump (ts : list tick) (s : Session) :
  (pumps_started (snd (handleConnection windows ts s))
   <= if is_nil (s_pty s) then 1 else 0)%nat.
Proof.
  destruct (handleConnection_events ts s) as (-> & _ & _).
  pose proof (reader_loop_invariants ts s) as Hinv.
  destruct (reader_loop windows ts s) as [[st s1] ev].
  destruct Hinv as (Hsome & Hle & _). cbn [snd].
  destruct (s_pty s) as [p|]; cbn [is_nil]; [|exact Hle].
  destruct (Hsome p eq_refl) as [_ ->]. lia.
Qed.

(** Every binary frame that [handleConnection] writes to the peer is an
    ERROR frame: the reader never sends DATA (only the pump does). *)
Theorem reader_sends_only_error_frames (ts : list tick) (s : Session) :
  Forall is_error_frame (peer_frames (snd (handleConnection windows ts s))).
Proof.
  destruct (handleConnection_events ts s) as (_ & _ & ->).
  pose proof (reader_loop_invariants ts s) as Hinv.
  destruct (reader_loop windows ts s) as [[st s1] ev].
  destruct Hinv as (_ & _ & _ & Hfr). cbn [snd].
  apply Forall_forall. exact Hfr.
Qed.

(** Every byte that [handleConnection] writes to the PTY comes from the
    payload of a DATA frame it received: what the PTY receives is a
    concatenation of prefixes of such payloads; RESIZE, CONTROL, HEARTBEAT,
    CLOSE and malformed frames contribute nothing. *)
Theorem pty_receives_only_data_payloads (ts : list tick) (s : Session) :
  exists chunks,
    pty_input (snd (handleConnection windows ts s)) = concat chunks
    /\ Forall (from_data_frame ts) chunks.
Proof.
  destruct (handleConnection_events ts s) as (_ & -> & _).
  pose proof (reader_loop_invariants ts s) as Hinv.
  destruct (reader_loop windows ts s) as [[st s1] ev].
  destruct Hinv as (_ & _ & Hchunks & _). exact Hchunks.
Qed.

(** However [handleConnection] ends -- by returning or by a panic -- its
    deferred [cleanup] has run: the session is [Closed], cancelled, its PTY
    handle and its connection are closed, and closing the connection is the
    last thing it did. *)
Theorem handleConnection_always_cleans_up (ts : list tick) (s : Session) :
  closeOnce_done s = false ->
  fst (fst (handleConnection windows ts s)) <> Running ->
  let s' := snd (fst (handleConnection windows ts s)) in
  state_of s' = Closed /\ ctx_done s' = true /\ conn_closed s' = true
  /\ (forall p, s_pty s' = Some p -> Pty.closed p = true)
  /\ last (snd (handleConnection windows ts s)) = Some ConnClose.
Proof.
  intros Hc Hfin s'.
  destruct (handleConnection_closes windows ts s Hc Hfin) as (H1 & H2 & H3 & H4).
  fold s' in H1, H2, H3, H4. repeat split; auto.
  unfold handleConnection in *.
  pose proof (reader_loop_closeOnce windows ts s) as Hl.
  destruct (reader_loop windows ts s) as [[st s1] ev]. cbn [fst snd] in Hl.
  rewrite Hc in Hl.
  assert (Hlast : last (snd (cleanup windows s1)) = Some ConnClose).
  { unfold cleanup. rewrite Hl. destruct (s_pty s1) as [p|]; [|reflexivity].
    destruct (Pty.Close windows p). cbn [snd]. apply last_snoc. }
  destruct (cleanup windows s1) as [s2 ev2]. cbn [fst snd] in *.
  destruct st; [exfalso; apply Hfin; reflexivity| |];
    cbn [snd]; rewrite app_comm_cons, !last_app, Hlast; reflexivity.
Qed.

(** [cleanup] runs once: a second call changes nothing and reaches neither
    the PTY nor the connection. *)
Theorem cleanup_idempotent (s : Session) :
  cleanup windows (fst (cleanup windows s)) = (fst (cleanup windows s), []).
Proof.
  unfold cleanup. destruct (closeOnce_done s) eqn:Hc.
  - cbn [fst]. rewrite Hc. reflexivity.
  - destruct (s_pty s) as [p|]; [destruct (Pty.Close windows p)|]; reflexivity.
Qed.

End Platform.

End SessionMore.

(** ** The pump, the heartbeat and the session set *)

Module Activities.
Import Go Sys Protocol Terminal SessionFacts Lifecycle Ordering SessionMore.

(** A read error of the PTY other than the end of file ends the pump after
    one report: its text having at most 65535 bytes, it is written to the
    peer in one ERROR frame carrying [PTY read error: ] and the text; the
    pump does not cancel the session, which is unchanged when the frame is
    written without error (and cancelled when the write fails), so the
    reader loop goes on without a pump. *)
Theorem pump_read_error_reported (s : Session) (p : Pty.PTY) (t : pump_tick)
    (err : error) :
  pump_async_cancel t = false -> pump_async_close t = false ->
  ctx_done s = false -> live s p ->
  pump_read t = inr err -> err <> io_EOF ->
  len (list_byte_of_string ("PTY read error: " ++ err)) <= 65535 ->
  pump_step t s
  = match pump_conn_write t with
    | None =>
        (Returned, s,
         [FileRead;
          ConnWrite BinaryMessage (error_frame ("PTY read error: " ++ err)) None])
    | Some werr =>
        (Returned, cancel s,
         [FileRead;
          ConnWrite BinaryMessage (error_frame ("PTY read error: " ++ err)) (Some werr);
          LogPrintf ("Failed to write message: " ++ werr)%string])
    end.
Proof.
  intros Hac Hcl Hd [Hp Hc] Hr Hne Hfit.
  unfold pump_step. rewrite Hac, Hcl. unfold observe_cancel, observe_close.
  rewrite Hp, Hd, Hp. unfold Pty.Read. rewrite Hc, Hr.
  destruct (String.eqb err "EOF") eqn:E.
  - apply String.eqb_eq in E. contradiction.
  - cbn [negb]. rewrite sendError_fits by exact Hfit.
    destruct (pump_conn_write t); reflexivity.
Qed.

Lemma pump_step_invariants (t : pump_tick) (s : Session) :
  let ev := snd (pump_step t s) in
  pty_input ev = [] /\ pumps_started ev = 0%nat
  /\ Forall (fun w => is_data_frame w \/ is_error_frame w) (peer_frames ev).
Proof.
  unfold pump_step.
  set (s0 := observe_close (pump_async_close t)
               (observe_cancel (pump_async_cancel t) s)). clearbody s0.
  destruct (ctx_done s0); [repeat split; constructor|].
  destruct (s_pty s0) as [p|]; [|repeat split; constructor].
  assert (Hread : pty_input (snd (Pty.Read p (pump_read t))) = []
                  /\ pumps_started (snd (Pty.Read p (pump_read t))) = 0%nat
                  /\ peer_frames (snd (Pty.Read p (pump_read t))) = []).
  { unfold Pty.Read. destruct (Pty.closed p); [|destruct (pump_read t)];
      repeat split. }
  destruct (Pty.Read p (pump_read t)) as [[buffer oerr] ev0].
  cbn [snd] in Hread. destruct Hread as (Hr1 & Hr2 & Hr3).
  assert (Hdone : forall m : Message,
             (forall x, Marshal m = Ok x -> is_data_frame x \/ is_error_frame x) ->
             let ev' := snd (sendMessage s0 m (pump_conn_write t)) in
             pty_input (ev0 ++ ev') = []
             /\ pumps_started (ev0 ++ ev') = 0%nat
             /\ Forall (fun w => is_data_frame w \/ is_error_frame w)
                       (peer_frames (ev0 ++ ev'))).
  { intros m Hm ev'.
    pose proof (sendMessage_pty_input s0 m (pump_conn_write t)) as [Hs1 Hs2].
    pose proof (sendMessage_frames s0 m (pump_conn_write t)) as Hs3.
    fold ev' in Hs1, Hs2, Hs3.
    rewrite pty_input_app, pumps_started_app, peer_frames_app, Hr1, Hr2, Hr3, Hs1, Hs2.
    repeat split. apply Forall_forall. intros x Hx. apply Hm, Hs3, Hx. }
  destruct oerr as [err|].
  - destruct (negb (String.eqb err "EOF")).
    + unfold sendError.
      pose proof (Hdone (mkMessage MsgTypeError
                           (list_byte_of_string ("PTY read error: " ++ err)))) as H.
      destruct (sendMessage s0 _ (pump_conn_write t)) as [s' ev']. cbn [snd] in *.
      apply H. intros x Hx. right. eexists. exact Hx.
    + cbn [snd]. rewrite Hr1, Hr2, Hr3. repeat split. constructor.
  - destruct (len buffer >? 0).
    + unfold sendData.
      pose proof (Hdone (mkMessage MsgTypeData buffer)) as H.
      destruct (sendMessage s0 _ (pump_conn_write t)) as [s' ev']. cbn [snd] in *.
      apply H. intros x Hx. left. eexists. exact Hx.
    + cbn [snd]. rewrite Hr1, Hr2, Hr3. repeat split. constructor.
Qed.

(** The pump only ever sends DATA and ERROR frames, never writes to the PTY
    and never starts another pump. *)
Theorem pump_only_forwards (ts : list pump_tick) (s : Session) :
  let ev := snd (readFromPTY ts s) in
  pty_input ev = [] /\ pumps_started ev = 0%nat
  /\ Forall (fun w => is_data_frame w \/ is_error_frame w) (peer_frames ev).
Proof.
  unfold readFromPTY. destruct (is_nil (s_pty s)); [repeat split; constructor|].
  revert s. induction ts as [|t ts IH]; intros s; [repeat split; constructor|].
  cbn [pump_loop]. pose proof (pump_step_invariants t s) as Hstep.
  destruct (pump_step t s) as [[st s1] ev1]. cbn [snd] in Hstep.
  destruct st; try exact Hstep.
  specialize (IH s1). destruct (pump_loop ts s1) as [[st2 s2] ev2].
  cbn [snd] in *. destruct Hstep as (H1 & H2 & H3). destruct IH as (I1 & I2 & I3).
  rewrite pty_input_app, pumps_started_app, peer_frames_app, H1, H2, I1, I2.
  repeat split. apply Forall_app. split; assumption.
Qed.

(** The heartbeat writes nothing but pings: it sends no binary frame, never
    touches the PTY and changes nothing of the session except that it may
    cancel it; and when it returns, the session is cancelled (by someone
    else, or by the heartbeat itself after a ping that could not be sent). *)
Theorem heartbeat_only_pings (bs : list beat) (s : Session) :
  let '(st, s', ev) := heartbeat bs s in
  s_pty s' = s_pty s /\ closeOnce_done s' = closeOnce_done s
  /\ conn_closed s' = conn_closed s
  /\ peer_frames ev = [] /\ pty_input ev = []
  /\ (st = Returned -> ctx_done s' = true).
Proof.
  revert s. induction bs as [|b bs IH]; intros s.
  - cbn [heartbeat]. repeat split. discriminate.
  - cbn [heartbeat].
    assert (Hstep : let '(st, s', ev) := heartbeat_step b s in
              s_pty s' = s_pty s /\ closeOnce_done s' = closeOnce_done s
              /\ conn_closed s' = conn_closed s
              /\ peer_frames ev = [] /\ pty_input ev = []
              /\ (st = Returned -> ctx_done s' = true)).
    { unfold heartbeat_step, observe_cancel, cancel.
      repeat case_match; simplify_eq; cbn; repeat split; auto; discriminate. }
    destruct (heartbeat_step b s) as [[st s1] ev1].
    destruct st; try exact Hstep.
    specialize (IH s1). destruct (heartbeat bs s1) as [[st2 s2] ev2].
    destruct Hstep as (H1 & H2 & H3 & H4 & H5 & _).
    destruct IH as (I1 & I2 & I3 & I4 & I5 & I6).
    rewrite peer_frames_app, pty_input_app, H4, H5, I4, I5.
    repeat split; try congruence. exact I6.
Qed.

Lemma heartbeat_only_pings_witness :
  ctx_done
    (snd (fst (heartbeat [mkBeat false WakeTicker None;
                          mkBeat false WakeTicker (Some "broken pipe"%string);
                          mkBeat false WakeTicker None] session0))) = true.
Proof.
  pose proof (heartbeat_only_pings
                [mkBeat false WakeTicker None;
                 mkBeat false WakeTicker (Some "broken pipe"%string);
                 mkBeat false WakeTicker None] session0) as H.
  destruct (heartbeat _ session0) as [[st s'] ev] eqn:E.
  destruct H as (_ & _ & _ & _ & _ & H). cbn [fst snd]. apply H.
  vm_compute in E. congruence.
Defined.

End Activities.

(** ** The session set of the handler over time *)

Module Registry.
Import Go Sys Protocol Terminal.

Lemma apply_op_grows (srv : Server) (op : server_op) :
  sessions srv ⊆ dom (heap srv) ->
  let srv' := apply_op srv op in
  sessions srv ⊆ sessions srv'
  /\ size (sessions srv') = (size (sessions srv) + served [op])%nat
  /\ sessions srv' ⊆ dom (heap srv').
Proof.
  intros Hdom. destruct op as [[err|]|windows session ts]; cbn [apply_op served].
  - cbn [ServeHTTP fst]. split; [done|]. split; [lia | exact Hdom].
  - unfold ServeHTTP. cbn [fst sessions heap].
    pose proof (is_fresh (dom (heap srv))) as Hfresh.
    set (p := fresh (dom (heap srv))) in *.
    assert (Hnew : p ∉ sessions srv) by (intros Hin; apply Hfresh, Hdom, Hin).
    split; [set_solver|]. split.
    + rewrite size_union by (apply disjoint_singleton_l, Hnew).
      rewrite size_singleton. lia.
    + rewrite dom_insert_L. apply union_mono_l, Hdom.
  - unfold run_handleConnection.
    destruct (heap srv !! session) as [s|] eqn:Hs.
    + destruct (handleConnection windows ts s) as [[st s'] ev].
      cbn [sessions heap]. split; [done|]. split; [lia|].
      rewrite dom_insert_L. set_solver.
    + split; [done|]. split; [lia | exact Hdom].
Qed.

(** The session set of the handler only grows: whatever requests are served
    and whatever sessions run and end, every session once registered stays
    registered, and the set holds one more session for every request whose
    upgrade succeeded. *)
Theorem registry_only_grows (ops : list server_op) (srv : Server) :
  sessions srv ⊆ dom (heap srv) ->
  let srv' := apply_ops ops srv in
  sessions srv ⊆ sessions srv'
  /\ size (sessions srv') = (size (sessions srv) + served ops)%nat.
Proof.
  intros Hdom srv'.
  assert (H : sessions srv ⊆ sessions srv'
              /\ size (sessions srv') = (size (sessions srv) + served ops)%nat
              /\ sessions srv' ⊆ dom (heap srv')); [|tauto].
  unfold srv', apply_ops. clear srv'. revert srv Hdom.
  induction ops as [|op ops IH]; intros srv Hdom.
  - cbn [fold_left served]. split; [done|]. split; [lia | exact Hdom].
  - cbn [fold_left].
    destruct (apply_op_grows srv op Hdom) as (Hsub & Hsize & Hdom').
    destruct (IH (apply_op srv op) Hdom') as (Hsub2 & Hsize2 & Hdom2).
    split; [transitivity (sessions (apply_op srv op)); assumption|].
    split; [|exact Hdom2].
    rewrite Hsize2, Hsize. cbn [served].
    destruct op as [[err|]|]; cbn [served]; lia.
Qed.

Lemma registry_only_grows_witness :
  size (sessions (apply_ops [OpServe None; OpRun false 0%nat peer_hangs_up;
                             OpServe (Some "bad handshake"%string); OpServe None]
                            NewHandler)) = 2%nat.
Proof.
  destruct (registry_only_grows
              [OpServe None; OpRun false 0%nat peer_hangs_up;
               OpServe (Some "bad handshake"%string); OpServe None]
              NewHandler) as [_ H].
  - cbn [NewHandler sessions]. apply empty_subseteq.
  - rewrite H. reflexivity.
Defined.

End Registry.

(** ** The codec of the client against the codec of the server *)

Module ClientFacts.
Import Go Sys Protocol Terminal GoFacts Codec CodecMore SessionFacts Ordering.

Lemma to_uint16_range (z : Z) : 0 <= to_uint16 z < 65536.
Proof. unfold to_uint16. apply Z.mod_pos_bound. lia. Qed.

Lemma encodeMessage_shape (type : Z) (data : list byte) :
  exists b1 b2,
    Client.encodeMessage type data = to_uint8 type :: b1 :: b2 :: data
    /\ Uint16 b1 b2 = len data mod 65536.
Proof.
  unfold Client.encodeMessage, PutUint16. cbn [app]. eexists _, _.
  split; [reflexivity|]. apply Uint16_PutUint16, to_uint16_range.
Qed.

(** The client decodes what it encodes, up to what the header can say: the
    type comes back modulo 256 and the payload comes back whole when it has
    at most 65535 bytes; a longer payload is not refused by [encodeMessage],
    its length is stored modulo 65536 and only that many of its first bytes
    come back. *)
Theorem client_roundtrip (type : Z) (data : list byte) :
  Client.decodeMessage (Client.encodeMessage type data)
  = Some (mkMessage (to_uint8 type)
                    (take (Z.to_nat (len data mod 65536)) data)).
Proof.
  destruct (encodeMessage_shape type data) as (b1 & b2 & -> & HL).
  unfold Client.decodeMessage. rewrite HL, len_frame.
  pose proof (Z.mod_le (len data) 65536 (len_nonneg data) ltac:(lia)) as Hle.
  rewrite (proj2 (Z.ltb_ge _ _)) by lia. reflexivity.
Qed.

(** Every frame the server encodes, the client decodes to the same type and
    payload, the frames of 65533 to 65535 payload bytes included. *)
Theorem client_decodes_server_frames (m : Message) (w : list byte) :
  Marshal m = Ok w -> Client.decodeMessage w = Some m.
Proof.
  intros Hm.
  assert (Hlen : len (Data m) <= 65535).
  { destruct (Z.le_gt_cases (len (Data m)) 65535) as [H|H]; [exact H|].
    rewrite Marshal_too_large in Hm by exact H. discriminate. }
  pose proof (len_nonneg (Data m)) as Hn.
  rewrite Marshal_ok in Hm by exact Hlen. injection Hm as <-.
  cbn [PutUint16 app]. unfold Client.decodeMessage.
  rewrite Uint16_PutUint16 by lia. rewrite len_frame.
  rewrite (proj2 (Z.ltb_ge _ _)) by lia.
  unfold len. rewrite Nat2Z.id, firstn_all. destruct m. reflexivity.
Qed.

Lemma client_decodes_server_frames_witness :
  Client.decodeMessage [x04; x02; x00; x6e; x6f] = Some (mkMessage x04 [x6e; x6f]).
Proof.
  apply (client_decodes_server_frames (mkMessage x04 [x6e; x6f])). reflexivity.
Defined.

(** The two decoders agree wherever the server's returns: what
    [UnmarshalMessage] accepts, [decodeMessage] decodes to the same frame,
    and what [UnmarshalMessage] rejects with an error, [decodeMessage]
    rejects; they can differ only on length fields of 65533 and more, where
    [UnmarshalMessage] panics. *)
Theorem decoders_agree (w : list byte) :
  match UnmarshalMessage w with
  | Ok m => Client.decodeMessage w = Some m
  | Err _ => Client.decodeMessage w = None
  | Panic _ => 65533 <= length_field w
  end.
Proof.
  destruct (UnmarshalMessage_classify w) as (Hok & Hpanic & Herr).
  destruct (UnmarshalMessage w) as [m|e|q] eqn:Hu.
  - destruct (Hok (ex_intro _ m eq_refl)) as (Hlong & HL & Hcover).
    destruct (frame_shape w Hlong) as (t & b1 & b2 & rest & -> & HLf & Hlen).
    rewrite HLf in *. rewrite Hlen in Hcover.
    rewrite UnmarshalMessage_prefix in Hu by lia. injection Hu as <-.
    unfold Client.decodeMessage. rewrite len_frame.
    rewrite (proj2 (Z.ltb_ge _ _)) by lia. reflexivity.
  - destruct (Herr (ex_intro _ e eq_refl)) as [Hshort | [HL Htrunc]].
    + destruct w as [|t [|b1 [|b2 rest]]]; try reflexivity.
      rewrite len_frame in Hshort. pose proof (len_nonneg rest). lia.
    + destruct w as [|t [|b1 [|b2 rest]]]; try reflexivity.
      cbn [length_field] in *. unfold Client.decodeMessage.
      rewrite (proj2 (Z.ltb_lt _ _)) by exact Htrunc. reflexivity.
  - destruct (Hpanic (ex_intro _ q eq_refl)) as [_ H]. exact H.
Qed.

(** *** Client frames handled by the server *)

Lemma resize_frame_bytes (cols rows : Z) :
  Client.encodeMessage 2 (Client.encodeResizeData cols rows)
  = x02 :: x04 :: x00 :: Client.encodeResizeData cols rows.
Proof. reflexivity. Qed.

Lemma control_frame_bytes (signal : Z) :
  Client.encodeMessage 3 [to_uint8 signal] = [x03; x01; x00; to_uint8 signal].
Proof. reflexivity. Qed.

(** What the client sends with [sendData] is what the server writes to the
    PTY, as long as the length stored in the header, the payload length
    modulo 65536, is at most 65532: the server writes that many of the first
    bytes of the payload -- all of it for payloads of at most 65532 bytes,
    and silently less for payloads of 65536 bytes and more. *)
Theorem client_data_reaches_pty (windows : bool) (s : Session) (data w : list byte)
    (e : env) :
  Client.sendData true data = Some w ->
  len data mod 65536 <= 65532 ->
  ctx_done s = false -> (s_pty s = None \/ exists p, live s p) -> pty_works e ->
  exists s' ev,
    reader_step windows (mkTick false (Received w) e) s = (Running, s', ev)
    /\ pty_input ev = take (Z.to_nat (len data mod 65536)) data.
Proof.
  intros [= <-] HL Hd Hpty He.
  destruct (encodeMessage_shape 1 data) as (b1 & b2 & Hshape & HU).
  pose proof (Z.mod_le (len data) 65536 (len_nonneg data) ltac:(lia)) as Hle.
  pose proof (Z.mod_pos_bound (len data) 65536 ltac:(lia)) as Hpos.
  assert (Hu : UnmarshalMessage (Client.encodeMessage 1 data)
               = Ok (mkMessage MsgTypeData
                       (take (Z.to_nat (len data mod 65536)) data))).
  { rewrite Hshape. rewrite UnmarshalMessage_prefix by lia. rewrite HU.
    reflexivity. }
  destruct (data_pass windows s _ _ e Hd Hpty Hu He) as (s' & ev & Hstep & Hin & _).
  exists s', ev. split; assumption.
Qed.

(** What the client sends with [resize] is applied to a live PTY: the
    server sets the window size to the two dimensions modulo 65536, without
    checking them, and the session goes on unchanged. *)
Theorem client_resize_applied (windows : bool) (s : Session) (p : Pty.PTY)
    (cols rows : Z) (w : list byte) (e : env) :
  Client.resize true cols rows = Some w ->
  ctx_done s = false -> live s p -> setsize_result e = None ->
  reader_step windows (mkTick false (Received w) e) s
  = (Running, s, [Setsize (cols mod 65536) (rows mod 65536)]).
Proof.
  intros [= <-] Hd [Hp Hc] Hset. rewrite resize_frame_bytes.
  rewrite reader_step_received by exact Hd.
  assert (Hu : UnmarshalMessage (x02 :: x04 :: x00 :: Client.encodeResizeData cols rows)
               = Ok (mkMessage MsgTypeResize (Client.encodeResizeData cols rows))).
  { rewrite UnmarshalMessage_prefix; [reflexivity | vm_compute; discriminate|].
    unfold len. cbn [Client.encodeResizeData PutUint16 app length].
    vm_compute. discriminate. }
  rewrite (handleMessage_resize _ _ _ _ _ Hu). unfold handleResize.
  rewrite (ensure_pty_present _ _ _ _ Hp).
  unfold Client.encodeResizeData, PutUint16. cbn [app UnmarshalResizeData Cols Rows].
  rewrite !Uint16_PutUint16 by apply to_uint16_range.
  unfold Pty.Resize. rewrite Hc, Hset. reflexivity.
Qed.

(** What the client sends with [sendControl] reaches the child of a live
    PTY as the signal modulo 256 (on a platform with signals), and the
    session goes on unchanged. *)
Theorem client_control_delivered (s : Session) (p : Pty.PTY) (pid : nat)
    (signal : Z) (w : list byte) (e : env) :
  Client.sendControl true signal = Some w ->
  ctx_done s = false -> live s p -> Pty.cmd_Process p = Some pid ->
  signal_result e = None ->
  reader_step false (mkTick false (Received w) e) s
  = (Running, s, [ProcessSignal (signal mod 256)]).
Proof.
  intros [= <-] Hd [Hp Hc] Hpid Hsig. rewrite control_frame_bytes.
  rewrite reader_step_received by exact Hd.
  assert (Hu : UnmarshalMessage [x03; x01; x00; to_uint8 signal]
               = Ok (mkMessage MsgTypeControl [to_uint8 signal])).
  { rewrite UnmarshalMessage_prefix; [reflexivity | vm_compute; discriminate|].
    vm_compute. discriminate. }
  rewrite (handleMessage_control _ _ _ _ _ Hu). unfold handleControl.
  rewrite Hp. unfold Pty.SendSignal. rewrite Hc, Hpid, Hsig. cbn [orb is_nil].
  rewrite uint8_of_to_uint8. reflexivity.
Qed.

End ClientFacts.

(** ** Concrete runs of the further properties *)

Module MoreRuns.
Import Go Sys Protocol Terminal SessionFacts SessionMore Activities ClientFacts.


Lemma close_frame_stops_reader_loop_witness :
  reader_loop false peer_sends_close session0 = (Returned, cancel session0, []).
Proof.
  destruct (close_frame_stops_reader_loop false session0 close_frame [] env0
              (mkTick false (Received data_a) env0) [] eq_refl eq_refl)
    as (_ & Hloop & _).
  exact Hloop.
Defined.

Lemma pty_start_failure_reported_witness :
  reader_step false (mkTick false (Received data_a) env_start_fails) createSession
  = (Running, createSession,
     [StartWithSize "/bin/sh" 80 24; CmdCancel;
      LogPrintf "Message handling error: failed to create PTY: fork failed";
      ConnWrite BinaryMessage
        (error_frame "Error: failed to create PTY: fork failed") None]).
Proof.
  destruct (pty_start_failure_reported false createSession data_a [x61]
              MsgTypeData env_start_fails "fork failed"%string
              eq_refl eq_refl (or_introl eq_refl) eq_refl eq_refl
              ltac:(vm_compute; discriminate))
    as [Hstep _].
  exact Hstep.
Defined.

Lemma malformed_resize_still_starts_pty_witness :
  reader_step false
    (mkTick false (Received [x02; x03; x00; x01; x00; x02]) env0) createSession
  = (Running, session0,
     [StartWithSize "/bin/sh" 80 24; GoReadFromPTY;
      LogPrintf
        "Message handling error: failed to unmarshal resize data: invalid resize data";
      ConnWrite BinaryMessage
        (error_frame "Error: failed to unmarshal resize data: invalid resize data")
        None]).
Proof.
  apply (malformed_resize_still_starts_pty false createSession
           [x02; x03; x00; x01; x00; x02] [x01; x00; x02] env0 3%nat 7%nat
           eq_refl eq_refl eq_refl ltac:(vm_compute; reflexivity) eq_refl).
Defined.

Lemma reader_loop_keeps_pty_witness :
  s_pty (snd (fst (reader_loop false peer_sends_close session0))) = Some pty0.
Proof.
  apply (reader_loop_keeps_pty false peer_sends_close session0 pty0). reflexivity.
Defined.

Lemma handleConnection_always_cleans_up_witness :
  last (snd (handleConnection true peer_hangs_up createSession)) = Some ConnClose.
Proof.
  destruct (handleConnection_always_cleans_up true peer_hangs_up createSession
              eq_refl ltac:(vm_compute; discriminate)) as (_ & _ & _ & _ & H).
  exact H.
Defined.

Lemma pump_read_error_reported_witness :
  pump_step (mkPumpTick false false (inr "input/output error"%string) None) session0
  = (Returned, session0,
     [FileRead;
      ConnWrite BinaryMessage (error_frame "PTY read error: input/output error") None]).
Proof.
  apply (pump_read_error_reported session0 pty0
           (mkPumpTick false false (inr "input/output error"%string) None)
           "input/output error"%string
           eq_refl eq_refl eq_refl (conj eq_refl eq_refl) eq_refl
           ltac:(discriminate) ltac:(vm_compute; discriminate)).
Defined.

Lemma client_data_reaches_pty_witness :
  exists s' ev,
    reader_step false
      (mkTick false (Received (Client.encodeMessage 1 [x68; x69])) env0)
      createSession
    = (Running, s', ev)
    /\ pty_input ev = [x68; x69].
Proof.
  apply (client_data_reaches_pty false createSession [x68; x69]
           (Client.encodeMessage 1 [x68; x69]) env0).
  - reflexivity.
  - vm_compute. discriminate.
  - reflexivity.
  - left. reflexivity.
  - split; [eexists _, _; reflexivity | reflexivity].
Defined.

Lemma client_resize_applied_witness :
  reader_step false
    (mkTick false (Received (Client.encodeMessage 2 (Client.encodeResizeData 132 50)))
            env0) session0
  = (Running, session0, [Setsize (132 mod 65536) (50 mod 65536)]).
Proof.
  apply (client_resize_applied false session0 pty0 132 50); try reflexivity.
  split; reflexivity.
Defined.

Lemma client_control_delivered_witness :
  reader_step false
    (mkTick false (Received (Client.encodeMessage 3 [to_uint8 2])) env0) session0
  = (Running, session0, [ProcessSignal (2 mod 256)]).
Proof.
  apply (client_control_delivered session0 pty0 7%nat 2); try reflexivity.
  split; reflexivity.
Defined.

End MoreRuns.
